(** * Session lifecycle of rn-firebase-auth-starter

    A shallow embedding of [src/services/authService.ts] (the Remote Auth
    Client) and of the [AuthProvider] of [src/contexts/AuthContext.tsx] (the
    Session Controller), with the properties of the session lifecycle proved
    over it.

    Asynchronous functions are modelled as computations in a small
    state-and-exception monad: a computation takes the current state (the
    React session state and the secure store), and gives an outcome (a
    returned value or a thrown error), the state it leaves behind and the
    list of observable events it emitted, in order. *)

From Stdlib Require Import Ascii String.
From stdpp Require Import base option list strings gmap fin_maps.

Local Open Scope string_scope.
Local Open Scope Z_scope.
Local Open Scope list_scope.

(* ===================================================================== *)
(** ** Data model *)
(* ===================================================================== *)

(** [User] of AuthContext.tsx (and the [user] object of [AuthResponse]). *)
Record User := mkUser {
  uid : string;
  email : string;
  displayName : option string;
  emailVerified : bool
}.

(** The [data] member of [AuthResponse] (authService.ts). *)
Record AuthData := mkAuthData {
  data_user : User;
  data_token : string;
  data_refreshToken : string
}.

(** [AuthResponse] of authService.ts. *)
Record AuthResponse := mkAuthResponse {
  success : bool;
  data : option AuthData;
  message : option string
}.

(** [ApiResponse] of authService.ts; its untyped [data] member is never
    read by the code and is left out. *)
Record ApiResponse := mkApiResponse {
  api_success : bool;
  api_message : option string
}.

Record LoginRequest := mkLoginRequest {
  login_email : string;
  login_password : string
}.

Record RegisterRequest := mkRegisterRequest {
  register_email : string;
  register_password : string;
  register_displayName : option string
}.

Record ResetPasswordRequest := mkResetPasswordRequest {
  reset_email : string
}.

(** The body of an HTTP error response, as far as [formatError] reads it:
    [error.response.data.message] and [error.response.data.error]. *)
Record ErrorPayload := mkErrorPayload {
  payload_message : option string;
  payload_error : option string
}.

(** [error.response] of a rejected request. *)
Record ErrorResponse := mkErrorResponse {
  status : Z;
  response_data : option ErrorPayload
}.

(** A JavaScript [Error] object.  A plain [new Error(m)] has neither a
    [response] nor a [code]; the errors the HTTP library rejects with are
    [Error]s that may carry both. *)
Record JsError := mkJsError {
  err_message : string;
  response : option ErrorResponse;
  code : option string
}.

(** [new Error(m)]. *)
Definition new_Error (m : string) : JsError :=
  {| err_message := m; response := None; code := None |}.

(** JavaScript truthiness of a value of type [string | null | undefined]:
    present and not the empty string. *)
Definition truthy (v : option string) : bool :=
  match v with
  | Some s => negb (String.eqb s "")
  | None => false
  end.

(** [v || d] at type string. *)
Definition or_else (v : option string) (d : string) : string :=
  match v with
  | Some s => if String.eqb s "" then d else s
  | None => d
  end.

(** The React state of [AuthProvider]: the three [useState] cells. *)
Record Session := mkSession {
  user : option User;
  isLoading : bool;
  error : option string
}.

(** [isAuthenticated: !!user] of the context value. *)
Definition isAuthenticated (s : Session) : bool :=
  match user s with Some _ => true | None => false end.

(** The initial values given to [useState]. *)
Definition initial_session : Session :=
  {| user := None; isLoading := true; error := None |}.

(** What a computation can be seen to do, in order. *)
Inductive Event :=
| EvSetUser (u : option User)
| EvSetIsLoading (b : bool)
| EvSetError (e : option string)
| EvGetItem (key : string)
| EvSetItem (key value : string)
| EvDeleteItem (key : string)
| EvRequest (method url : string) (bearer : option string)
| EvConsole (level text : string).

(** The state the code runs on: the session and the secure store. *)
Record State := mkState {
  session : Session;
  store : gmap string string
}.

(** Everything the program does not own.  The backend answers each request
    either with a response body or with the error the HTTP library rejects
    with; the answer may depend on the bearer token attached to the request.
    [set_fault] tells whether [SecureStore.setItemAsync] rejects a write, and
    with which error. *)
Record Env := mkEnv {
  srv_login : LoginRequest -> option string -> JsError + AuthResponse;
  srv_register : RegisterRequest -> option string -> JsError + AuthResponse;
  srv_resetPassword : ResetPasswordRequest -> option string -> JsError + ApiResponse;
  srv_refresh : string -> option string -> JsError + AuthResponse;
  srv_logout : option string -> JsError + ApiResponse;
  srv_me : option string -> JsError + AuthResponse;
  set_fault : string -> string -> option JsError
}.

(** [JSON.parse] and [JSON.stringify] at the user record: built-ins of the
    JavaScript runtime, taken as an interface.  [JSON_parse] throws (left),
    or gives [null] or a user. *)
Class JSON := mkJSON {
  JSON_parse : string -> JsError + option User;
  JSON_stringify : User -> string
}.

(* ===================================================================== *)
(** ** The monad of asynchronous computations *)
(* ===================================================================== *)

Inductive Outcome (A : Type) :=
| Returned (a : A)
| Thrown (e : JsError).
Arguments Returned {A} a.
Arguments Thrown {A} e.

Record Run (A : Type) := mkRun {
  outcome : Outcome A;
  final : State;
  events : list Event
}.
Arguments mkRun {A} _ _ _.
Arguments outcome {A} _.
Arguments final {A} _.
Arguments events {A} _.

Definition M (A : Type) : Type := State -> Run A.

Definition ret {A} (a : A) : M A :=
  fun s => mkRun (Returned a) s [].

Definition bind {A B} (m : M A) (k : A -> M B) : M B :=
  fun s =>
    let r := m s in
    match outcome r with
    | Returned a =>
        let r' := k a (final r) in
        mkRun (outcome r') (final r') (events r ++ events r')
    | Thrown e => mkRun (Thrown e) (final r) (events r)
    end.

(** [throw e]. *)
Definition throw {A} (e : JsError) : M A :=
  fun s => mkRun (Thrown e) s [].

(** [try { m } catch (e) { h e }]. *)
Definition try_catch {A} (m : M A) (h : JsError -> M A) : M A :=
  fun s =>
    let r := m s in
    match outcome r with
    | Returned a => r
    | Thrown e =>
        let r' := h e (final r) in
        mkRun (outcome r') (final r') (events r ++ events r')
    end.

(** [try { m } finally { f }]: [f] runs on every exit of [m]; the outcome
    is that of [m] unless [f] itself throws. *)
Definition try_finally {A} (m : M A) (f : M unit) : M A :=
  fun s =>
    let r := m s in
    let r' := f (final r) in
    mkRun (match outcome r' with
           | Returned _ => outcome r
           | Thrown e => Thrown e
           end)
          (final r') (events r ++ events r').

(** [try { m } catch (e) { h e } finally { f }]. *)
Definition try_catch_finally {A} (m : M A) (h : JsError -> M A) (f : M unit) : M A :=
  try_finally (try_catch m h) f.

#[global] Instance M_ret : MRet M := @ret.
#[global] Instance M_bind : MBind M := fun A B k m => bind m k.

(** Emit one event, change nothing. *)
Definition emit (ev : Event) : M unit :=
  fun s => mkRun (Returned tt) s [ev].

(** Replace the session. *)
Definition modify_session (f : Session -> Session) : M unit :=
  fun s => mkRun (Returned tt) {| session := f (session s); store := store s |} [].

(** The three state setters returned by [useState]. *)
Definition setUser (u : option User) : M unit :=
  modify_session (fun ss => {| user := u; isLoading := isLoading ss; error := error ss |}) ;;
  emit (EvSetUser u).

Definition setIsLoading (b : bool) : M unit :=
  modify_session (fun ss => {| user := user ss; isLoading := b; error := error ss |}) ;;
  emit (EvSetIsLoading b).

Definition setError (e : option string) : M unit :=
  modify_session (fun ss => {| user := user ss; isLoading := isLoading ss; error := e |}) ;;
  emit (EvSetError e).

(** [console.warn], [console.error]. *)
Definition console_warn (text : string) : M unit := emit (EvConsole "warn" text).
Definition console_error (text : string) : M unit := emit (EvConsole "error" text).

(* ===================================================================== *)
(** ** The secure store *)
(* ===================================================================== *)

(** The secure store is the library expo-secure-store, whose code is not
    part of the repository: the three functions below follow the contract of
    the Secure Credential Store of the specification (section 4.3), with the
    failures of a write given by the environment. *)
Module SecureStore.

(** Modelled from the spec: [SecureStore.getItemAsync], get(key) gives the
    string or absent. *)
Definition getItemAsync (key : string) : M (option string) :=
  fun s => mkRun (Returned (store s !! key)) s [EvGetItem key].

(** Modelled from the spec: [SecureStore.setItemAsync], set(key,value) gives
    ok or fails; a failed write leaves the store as it was. *)
Definition setItemAsync (E : Env) (key value : string) : M unit :=
  fun s =>
    match set_fault E key value with
    | Some e => mkRun (Thrown e) s [EvSetItem key value]
    | None =>
        mkRun (Returned tt)
              {| session := session s; store := <[key := value]> (store s) |}
              [EvSetItem key value]
    end.

(** Modelled from the spec: [SecureStore.deleteItemAsync], delete(key) gives
    ok and is idempotent (deleting an absent key is not an error). *)
Definition deleteItemAsync (key : string) : M unit :=
  fun s =>
    mkRun (Returned tt)
          {| session := session s; store := delete key (store s) |}
          [EvDeleteItem key].

End SecureStore.

(* ===================================================================== *)
(** ** The Remote Auth Client: authService.ts *)
(* ===================================================================== *)

Module AuthService.

(** [getStoredToken]: the [catch] cannot be reached, reading does not
    fail. *)
Definition getStoredToken : M (option string) :=
  try_catch
    (token ← SecureStore.getItemAsync "auth_token"; mret token)
    (fun _ => mret None).

(** [handleTokenExpiration]. *)
Definition handleTokenExpiration : M unit :=
  console_warn "Token expired".

(** [formatError]. *)
Definition formatError (error : JsError) : JsError :=
  let payload := response error ≫= response_data in
  if truthy (payload ≫= payload_message) then
    new_Error (default "" (payload ≫= payload_message))
  else if truthy (payload ≫= payload_error) then
    new_Error (default "" (payload ≫= payload_error))
  else if bool_decide (code error = Some "NETWORK_ERROR") then
    new_Error "Network error. Please check your connection."
  else if bool_decide (code error = Some "ECONNABORTED") then
    new_Error "Request timeout. Please try again."
  else
    new_Error "An unexpected error occurred. Please try again.".

(** One request through the configured [this.api] instance: the request
    interceptor attaches the stored token when there is one, the backend
    answers, and the response interceptor passes a response through and
    turns a rejection into [formatError] of it (after the advisory hook on
    status 401). *)
Definition api_request {A} (method url : string)
    (backend : option string -> JsError + A) : M A :=
  token ← getStoredToken;
  let bearer := if truthy token then token else None in
  emit (EvRequest method url bearer) ;;
  match backend bearer with
  | inr body => mret body
  | inl error =>
      (if bool_decide (status <$> response error = Some 401)
       then handleTokenExpiration else mret tt) ;;
      throw (formatError error)
  end.

Definition login (E : Env) (credentials : LoginRequest) : M AuthResponse :=
  try_catch
    (body ← api_request "POST" "/auth/login" (srv_login E credentials); mret body)
    (fun error => throw (formatError error)).

Definition register (E : Env) (userData : RegisterRequest) : M AuthResponse :=
  try_catch
    (body ← api_request "POST" "/auth/register" (srv_register E userData); mret body)
    (fun error => throw (formatError error)).

Definition resetPassword (E : Env) (emailData : ResetPasswordRequest) : M ApiResponse :=
  try_catch
    (body ← api_request "POST" "/auth/reset-password" (srv_resetPassword E emailData);
     mret body)
    (fun error => throw (formatError error)).

Definition refreshToken (E : Env) (refreshToken : string) : M AuthResponse :=
  try_catch
    (body ← api_request "POST" "/auth/refresh" (srv_refresh E refreshToken); mret body)
    (fun error => throw (formatError error)).

Definition logout (E : Env) : M ApiResponse :=
  try_catch
    (body ← api_request "POST" "/auth/logout" (srv_logout E); mret body)
    (fun error => throw (formatError error)).

(** [getCurrentUser]: the [data] member of the body of GET /auth/me. *)
Definition getCurrentUser (E : Env) : M (option AuthData) :=
  try_catch
    (body ← api_request "GET" "/auth/me" (srv_me E); mret (data body))
    (fun error => throw (formatError error)).

(** [verifyEmail]: no caller in the repository; its backend is a parameter. *)
Definition verifyEmail (srv_verifyEmail : string -> option string -> JsError + ApiResponse)
    (token : string) : M ApiResponse :=
  try_catch
    (body ← api_request "POST" "/auth/verify-email" (srv_verifyEmail token); mret body)
    (fun error => throw (formatError error)).

End AuthService.

(* ===================================================================== *)
(** ** The Session Controller: AuthContext.tsx *)
(* ===================================================================== *)

Definition TOKEN_KEY : string := "auth_token".
Definition REFRESH_TOKEN_KEY : string := "refresh_token".
Definition USER_KEY : string := "user_data".

Module AuthContext.
Section WithJSON.
Context {J : JSON}.

(** [JSON.parse(userData)], which throws on a malformed string. *)
Definition parse (text : string) : M (option User) :=
  match JSON_parse text with
  | inr v => mret v
  | inl e => throw e
  end.

(** [clearAuthData]: the [catch] only logs. *)
Definition clearAuthData : M unit :=
  try_catch
    (SecureStore.deleteItemAsync TOKEN_KEY ;;
     SecureStore.deleteItemAsync REFRESH_TOKEN_KEY ;;
     SecureStore.deleteItemAsync USER_KEY ;;
     setUser None ;;
     setError None)
    (fun _ => console_error "Error clearing auth data:").

(** [storeAuthData]. *)
Definition storeAuthData (E : Env) (authData : AuthResponse) : M unit :=
  match data authData with
  | Some d =>
      if negb (truthy (Some (data_token d))) then
        throw (new_Error "Invalid authentication data received")
      else
        try_catch
          (SecureStore.setItemAsync E TOKEN_KEY (data_token d) ;;
           SecureStore.setItemAsync E REFRESH_TOKEN_KEY (data_refreshToken d) ;;
           SecureStore.setItemAsync E USER_KEY (JSON_stringify (data_user d)) ;;
           setUser (Some (data_user d)) ;;
           setError None)
          (fun _ => throw (new_Error "Failed to store authentication data"))
  | None => throw (new_Error "Invalid authentication data received")
  end.

(** The [try] block of [checkAuthStatus]. *)
Definition checkAuthStatus_try (E : Env) : M unit :=
  setIsLoading true ;;
  token ← SecureStore.getItemAsync TOKEN_KEY;
  userData ← SecureStore.getItemAsync USER_KEY;
  if truthy token && truthy userData then
    parsedUser ← parse (default "" userData);
    setUser parsedUser ;;
    try_catch
      (currentUserData ← AuthService.getCurrentUser E;
       match currentUserData with
       | Some d =>
           setUser (Some (data_user d)) ;;
           SecureStore.setItemAsync E USER_KEY (JSON_stringify (data_user d))
       | None => mret tt
       end)
      (fun tokenError => clearAuthData)
  else mret tt.

(** [checkAuthStatus], the startup reconciliation. *)
Definition checkAuthStatus (E : Env) : M unit :=
  try_catch_finally
    (checkAuthStatus_try E)
    (fun error => console_error "Error checking auth status:" ;; clearAuthData)
    (setIsLoading false).

(** The [try] block of [login]. *)
Definition login_try (E : Env) (credentials : LoginRequest) : M unit :=
  setIsLoading true ;;
  setError None ;;
  authResponse ← AuthService.login E credentials;
  if success authResponse && bool_decide (is_Some (data authResponse)) then
    storeAuthData E authResponse
  else
    throw (new_Error (or_else (message authResponse) "Login failed")).

(** [error instanceof Error]: every value thrown in this program is an
    [Error] object. *)
Definition instanceof_Error (error : JsError) : bool := true.

(** The [catch] block of [login]. *)
Definition login_catch (error : JsError) : M unit :=
  let errorMessage :=
    if instanceof_Error error then err_message error else "Login failed" in
  setError (Some errorMessage) ;;
  throw error.

Definition login (E : Env) (credentials : LoginRequest) : M unit :=
  try_catch_finally (login_try E credentials) login_catch (setIsLoading false).

(** The [try] block of [register]. *)
Definition register_try (E : Env) (userData : RegisterRequest) : M unit :=
  setIsLoading true ;;
  setError None ;;
  authResponse ← AuthService.register E userData;
  if success authResponse && bool_decide (is_Some (data authResponse)) then
    storeAuthData E authResponse
  else
    throw (new_Error (or_else (message authResponse) "Registration failed")).

(** The [catch] block of [register]. *)
Definition register_catch (error : JsError) : M unit :=
  let errorMessage :=
    if instanceof_Error error then err_message error else "Registration failed" in
  setError (Some errorMessage) ;;
  throw error.

Definition register (E : Env) (userData : RegisterRequest) : M unit :=
  try_catch_finally (register_try E userData) register_catch (setIsLoading false).

(** The [try] block of [logout]. *)
Definition logout_try (E : Env) : M unit :=
  setIsLoading true ;;
  try_catch
    (AuthService.logout E ;; mret tt)
    (fun _ => console_warn "Server logout failed:") ;;
  clearAuthData.

(** The [catch] block of [logout]. *)
Definition logout_catch (error : JsError) : M unit :=
  let errorMessage :=
    if instanceof_Error error then err_message error else "Logout failed" in
  setError (Some errorMessage) ;;
  throw error.

Definition logout (E : Env) : M unit :=
  try_catch_finally (logout_try E) logout_catch (setIsLoading false).

(** The [try] block of [resetPassword]. *)
Definition resetPassword_try (E : Env) (email : string) : M unit :=
  setIsLoading true ;;
  setError None ;;
  response ← AuthService.resetPassword E {| reset_email := email |};
  if negb (api_success response) then
    throw (new_Error (or_else (api_message response) "Password reset failed"))
  else mret tt.

(** The [catch] block of [resetPassword]. *)
Definition resetPassword_catch (error : JsError) : M unit :=
  let errorMessage :=
    if instanceof_Error error then err_message error else "Password reset failed" in
  setError (Some errorMessage) ;;
  throw error.

Definition resetPassword (E : Env) (email : string) : M unit :=
  try_catch_finally (resetPassword_try E email) resetPassword_catch (setIsLoading false).

(** The [try] block of [refreshToken]. *)
Definition refreshToken_try (E : Env) : M unit :=
  storedRefreshToken ← SecureStore.getItemAsync REFRESH_TOKEN_KEY;
  if negb (truthy storedRefreshToken) then
    throw (new_Error "No refresh token available")
  else
    authResponse ← AuthService.refreshToken E (default "" storedRefreshToken);
    if success authResponse && bool_decide (is_Some (data authResponse)) then
      storeAuthData E authResponse
    else
      throw (new_Error (or_else (message authResponse) "Token refresh failed")).

(** The [catch] block of [refreshToken]: it purges first. *)
Definition refreshToken_catch (error : JsError) : M unit :=
  clearAuthData ;;
  let errorMessage :=
    if instanceof_Error error then err_message error else "Token refresh failed" in
  setError (Some errorMessage) ;;
  throw error.

(** [refreshToken]: it has no [finally] and never touches [isLoading]. *)
Definition refreshToken (E : Env) : M unit :=
  try_catch (refreshToken_try E) refreshToken_catch.

(** [clearError]. *)
Definition clearError : M unit := setError None.

End WithJSON.
End AuthContext.

Import AuthContext.

(* ===================================================================== *)
(** ** Vocabulary of the properties *)
(* ===================================================================== *)

(** The state in which [AuthProvider] mounts, over a given store. *)
Definition startup_state (st : gmap string string) : State :=
  {| session := initial_session; store := st |}.

(** The operations a caller can run on the Session Controller, the startup
    reconciliation among them. *)
Inductive Op :=
| OpCheckAuthStatus
| OpLogin (credentials : LoginRequest)
| OpRegister (userData : RegisterRequest)
| OpLogout
| OpResetPassword (email : string)
| OpRefreshToken
| OpClearError.

Definition run_op {J : JSON} (E : Env) (op : Op) : M unit :=
  match op with
  | OpCheckAuthStatus => checkAuthStatus E
  | OpLogin credentials => login E credentials
  | OpRegister userData => register E userData
  | OpLogout => logout E
  | OpResetPassword email => resetPassword E email
  | OpRefreshToken => refreshToken E
  | OpClearError => clearError
  end.

(** A history: operations run one after the other, each against the
    environment of its own time; the state after each is the state the next
    one starts from, whether it returned or threw. *)
Fixpoint run_ops {J : JSON} (ops : list (Env * Op)) (s : State) : State :=
  match ops with
  | [] => s
  | (E, op) :: rest => run_ops rest (final (run_op E op s))
  end.

(** The events of a purge, and the store after one. *)
Definition purge_events : list Event :=
  [EvDeleteItem TOKEN_KEY; EvDeleteItem REFRESH_TOKEN_KEY; EvDeleteItem USER_KEY;
   EvSetUser None; EvSetError None].

Definition purged (m : gmap string string) : gmap string string :=
  delete USER_KEY (delete REFRESH_TOKEN_KEY (delete TOKEN_KEY m)).

(** The Credential Bundle is absent from a store. *)
Definition bundle_absent (m : gmap string string) : Prop :=
  m !! TOKEN_KEY = None /\ m !! REFRESH_TOKEN_KEY = None /\ m !! USER_KEY = None.

(** The session shows a user only while an access token is stored. *)
Definition session_consistent (s : State) : Prop :=
  user (session s) <> None -> is_Some (store s !! TOKEN_KEY).

(** A run begins by setting [isLoading=true] and then [error=null]. *)
Definition sets_flags_at_entry {A} (r : Run A) : Prop :=
  exists rest, events r = EvSetIsLoading true :: EvSetError None :: rest.

(** The last thing a run does is to set [isLoading=false]. *)
Definition releases_loading_at_exit {A} (r : Run A) : Prop :=
  isLoading (session (final r)) = false /\
  last (events r) = Some (EvSetIsLoading false).

Definition loading_discipline {A} (r : Run A) : Prop :=
  sets_flags_at_entry r /\ releases_loading_at_exit r.

(** The events of a purge occur, one after the other, in a list of events. *)
Definition contains_purge (t : list Event) : Prop :=
  exists before after, t = before ++ purge_events ++ after.

(** The bearer token the request interceptor attaches, given the store. *)
Definition bearer_of (m : gmap string string) : option string :=
  if truthy (m !! "auth_token") then m !! "auth_token" else None.

(** The events of one request: the interceptor's read of the token, the
    request, and the advisory warning when the answer has status 401. *)
Definition request_events (method url : string) (s : State) : list Event :=
  [EvGetItem "auth_token"; EvRequest method url (bearer_of (store s))].

Definition rejection_events (error : JsError) : list Event :=
  if bool_decide (status <$> response error = Some 401)
  then [EvConsole "warn" "Token expired"] else [].

Definition generic_message : string :=
  "An unexpected error occurred. Please try again.".

(** The message the specification asks for: the payload's message, else the
    payload's error, else the network or timeout message by the code, else
    the generic one. *)
Definition precedence_message (error : JsError) : string :=
  let payload : option ErrorPayload := response error ≫= response_data in
  match payload ≫= payload_message with
  | Some m => m
  | None =>
      match payload ≫= payload_error with
      | Some m => m
      | None =>
          if bool_decide (code error = Some "NETWORK_ERROR")
          then "Network error. Please check your connection."
          else if bool_decide (code error = Some "ECONNABORTED")
          then "Request timeout. Please try again."
          else generic_message
      end
  end.

(** [wp m s Q]: the run of [m] from [s] satisfies [Q]. *)
Definition wp {A} (m : M A) (s : State)
    (Q : Outcome A -> State -> list Event -> Prop) : Prop :=
  Q (outcome (m s)) (final (m s)) (events (m s)).

Definition with_user (u : option User) (s : State) : State :=
  {| session := {| user := u; isLoading := isLoading (session s); error := error (session s) |};
     store := store s |}.
Definition with_isLoading (b : bool) (s : State) : State :=
  {| session := {| user := user (session s); isLoading := b; error := error (session s) |};
     store := store s |}.
Definition with_error (e : option string) (s : State) : State :=
  {| session := {| user := user (session s); isLoading := isLoading (session s); error := e |};
     store := store s |}.
Definition with_store (m : gmap string string) (s : State) : State :=
  {| session := session s; store := m |}.

(* ===================================================================== *)
(** ** Test doubles *)
(* ===================================================================== *)

(** A small codec standing in for the runtime's JSON on concrete runs:
    [uid;email;0] or [uid;email;1], and [null]. *)
Fixpoint split_on (sep : Ascii.ascii) (text : string) : list string :=
  match text with
  | EmptyString => [EmptyString]
  | String c rest =>
      if Ascii.eqb c sep then EmptyString :: split_on sep rest
      else match split_on sep rest with
           | [] => [String c EmptyString]
           | w :: ws => String c w :: ws
           end
  end.

Definition stub_stringify (u : User) : string :=
  (uid u ++ ";" ++ email u ++ ";" ++ (if emailVerified u then "1" else "0"))%string.

Definition stub_parse (text : string) : JsError + option User :=
  if String.eqb text "null" then inr None
  else match split_on ";"%char text with
       | [a; b; c] =>
           if String.eqb c "1" then inr (Some (mkUser a b None true))
           else if String.eqb c "0" then inr (Some (mkUser a b None false))
           else inl (new_Error "Unexpected token in JSON")
       | _ => inl (new_Error "Unexpected token in JSON")
       end.

Definition stub_json : JSON :=
  {| JSON_parse := stub_parse; JSON_stringify := stub_stringify |}.

Definition alice : User :=
  {| uid := "u1"; email := "a@b.com"; displayName := None; emailVerified := true |}.

Definition alice_data : AuthData :=
  {| data_user := alice; data_token := "t1"; data_refreshToken := "r1" |}.

Definition alice_body : AuthResponse :=
  {| success := true; data := Some alice_data; message := None |}.

Definition alice_credentials : LoginRequest :=
  {| login_email := "a@b.com"; login_password := "secret1" |}.

(** A rejection with HTTP status 401 and a message in its payload. *)
Definition invalid_credentials : JsError :=
  {| err_message := "Request failed with status code 401";
     response := Some {| status := 401;
                         response_data := Some {| payload_message := Some "Invalid credentials";
                                                  payload_error := None |} |};
     code := Some "ERR_BAD_REQUEST" |}.

(** A backend that accepts everything, over a store that never fails. *)
Definition env_ok : Env :=
  {| srv_login := fun _ _ => inr alice_body;
     srv_register := fun _ _ => inr alice_body;
     srv_resetPassword := fun _ _ => inr {| api_success := true; api_message := None |};
     srv_refresh := fun _ _ => inr alice_body;
     srv_logout := fun _ => inr {| api_success := true; api_message := None |};
     srv_me := fun _ => inr alice_body;
     set_fault := fun _ _ => None |}.

(** A backend that rejects every request with [invalid_credentials]. *)
Definition env_reject : Env :=
  {| srv_login := fun _ _ => inl invalid_credentials;
     srv_register := fun _ _ => inl invalid_credentials;
     srv_resetPassword := fun _ _ => inl invalid_credentials;
     srv_refresh := fun _ _ => inl invalid_credentials;
     srv_logout := fun _ => inl invalid_credentials;
     srv_me := fun _ => inl invalid_credentials;
     set_fault := fun _ _ => None |}.

(** A store holding a whole Credential Bundle for [alice]. *)
Definition alice_store : gmap string string :=
  <[USER_KEY := stub_stringify alice]>
    (<[REFRESH_TOKEN_KEY := "r0"]> (<[TOKEN_KEY := "t0"]> ∅)).

(** A store whose serialized user is out of date. *)
Definition stale_store : gmap string string :=
  <[USER_KEY := "u1;old@b.com;0"]>
    (<[REFRESH_TOKEN_KEY := "r0"]> (<[TOKEN_KEY := "t0"]> ∅)).

(** A store after a partial write: the token without the user. *)
Definition token_only_store : gmap string string :=
  <[TOKEN_KEY := "t0"]> ∅.

(** A settled session with a stale error, signed in as [alice]. *)
Definition alice_state : State :=
  {| session := {| user := Some alice; isLoading := false; error := Some "stale" |};
     store := alice_store |}.

(* ===================================================================== *)
(** ** The callers: the routing guard and the forms *)
(* ===================================================================== *)

(** [useAuthStatus]: the state part of the context value. *)
Record AuthStatus := mkAuthStatus {
  status_user : option User;
  status_isLoading : bool;
  status_isAuthenticated : bool;
  status_error : option string
}.

Definition useAuthStatus (ss : Session) : AuthStatus :=
  {| status_user := user ss;
     status_isLoading := isLoading ss;
     status_isAuthenticated := isAuthenticated ss;
     status_error := error ss |}.

(** The effect of [AuthGuard] (app/_layout.tsx): the route it replaces the
    current one with, if any. *)
Definition AuthGuard (ss : Session) : option string :=
  let st := useAuthStatus ss in
  if negb (status_isLoading st) then
    if status_isAuthenticated st then Some "/(tabs)" else Some "/(auth)/login"
  else None.

(** A JavaScript string as its UTF-16 code units, which is what [length]
    counts and what a regular expression without the [u] flag tests. *)
Definition code_units (text : string) : list N :=
  map N_of_ascii (list_ascii_of_string text).

(** [/[A-Z]/], [/[a-z]/], [/\d/] and [/[^A-Za-z0-9]/] on one code unit. *)
Definition is_upper (c : N) : bool := ((65 <=? c) && (c <=? 90))%N.
Definition is_lower (c : N) : bool := ((97 <=? c) && (c <=? 122))%N.
Definition is_digit (c : N) : bool := ((48 <=? c) && (c <=? 57))%N.
Definition is_special (c : N) : bool :=
  negb (is_upper c || is_lower c || is_digit c).

(** [re.test(password)] for a one-character class: some code unit matches. *)
Definition test (class : N -> bool) (password : list N) : bool :=
  existsb class password.

Module RegisterScreen.

(** The result of [getPasswordStrength]. *)
Record PasswordStrength := mkPasswordStrength {
  strength : nat;
  text : string;
  color : string
}.

(** The counter of [getPasswordStrength] after its five tests. *)
Definition strength_count (password : list N) : nat :=
  (if 8 <=? length password then 1 else 0)%nat
  + (if test is_upper password then 1 else 0)%nat
  + (if test is_lower password then 1 else 0)%nat
  + (if test is_digit password then 1 else 0)%nat
  + (if test is_special password then 1 else 0)%nat.

(** [getPasswordStrength]. *)
Definition getPasswordStrength (password : list N) : PasswordStrength :=
  match password with
  | [] => {| strength := 0; text := ""; color := "transparent" |}
  | _ =>
      let strength := strength_count password in
      if (strength <=? 2)%nat then {| strength := strength; text := "Weak"; color := "#ff4444" |}
      else if (strength <=? 3)%nat then {| strength := strength; text := "Fair"; color := "#ffaa00" |}
      else if (strength <=? 4)%nat then {| strength := strength; text := "Good"; color := "#00aaff" |}
      else {| strength := strength; text := "Strong"; color := "#00ff00" |}
  end.

(** The [password] member of [registerSchema]: the messages of the checks
    that fail, in the order of the checks. *)
Definition password_issues (password : list N) : list string :=
  (if (length password <? 8)%nat then ["Password must be at least 8 characters"] else [])
  ++ (if test is_upper password then []
      else ["Password must contain at least one uppercase letter"])
  ++ (if test is_lower password then []
      else ["Password must contain at least one lowercase letter"])
  ++ (if test is_digit password then []
      else ["Password must contain at least one number"]).

End RegisterScreen.

Module LoginScreen.

(** The [password] member of [loginSchema]. *)
Definition password_issues (password : list N) : list string :=
  if (length password <? 6)%nat then ["Password must be at least 6 characters"] else [].

End LoginScreen.

(** What a form handler can be seen to do: the events of the Session
    Controller it calls, and its own. *)
Inductive UiEvent :=
| UiController (ev : Event)
| UiSetIsSubmitting (b : bool)
| UiSetEmailSent (b : bool)
| UiHaptic (call style : string)
| UiAlert (title message : string).

(** The run of a form handler: the state of the application after it, the
    [isSubmitting] cell of the form, and its events in order.  A handler
    catches whatever the operation throws, so it has no outcome of its
    own. *)
Record FormRun := mkFormRun {
  app_after : State;
  isSubmitting_after : bool;
  ui_events : list UiEvent
}.

Module LoginForm.

(** [handleLogin] of app/(auth)/login.tsx. *)
Definition handleLogin {J : JSON} (E : Env) (data : LoginRequest) (s : State) : FormRun :=
  let cleared := clearError s in
  let r := login E data (final cleared) in
  let try_events :=
    [UiSetIsSubmitting true] ++ map UiController (events cleared)
    ++ [UiHaptic "impactAsync" "Medium"] ++ map UiController (events r) in
  match outcome r with
  | Returned _ =>
      {| app_after := final r; isSubmitting_after := false;
         ui_events := try_events
           ++ [UiHaptic "notificationAsync" "Success"; UiSetIsSubmitting false] |}
  | Thrown loginError =>
      let errorMessage :=
        if instanceof_Error loginError then err_message loginError else "Login failed" in
      {| app_after := final r; isSubmitting_after := false;
         ui_events := try_events
           ++ [UiHaptic "notificationAsync" "Error"; UiAlert "Login Error" errorMessage;
               UiSetIsSubmitting false] |}
  end.

End LoginForm.

Module RegisterForm.

(** [RegisterFormData], with the passwords as the controller passes them
    on. *)
Record RegisterFormData := mkRegisterFormData {
  form_displayName : option string;
  form_email : string;
  form_password : string;
  form_confirmPassword : string
}.

(** [handleRegister] of the register screen. *)
Definition handleRegister {J : JSON} (E : Env) (data : RegisterFormData) (s : State)
    : FormRun :=
  let cleared := clearError s in
  let registerData :=
    {| register_email := form_email data; register_password := form_password data;
       register_displayName := form_displayName data |} in
  let r := register E registerData (final cleared) in
  let try_events :=
    [UiSetIsSubmitting true] ++ map UiController (events cleared)
    ++ [UiHaptic "impactAsync" "Medium"] ++ map UiController (events r) in
  match outcome r with
  | Returned _ =>
      {| app_after := final r; isSubmitting_after := false;
         ui_events := try_events
           ++ [UiHaptic "notificationAsync" "Success"; UiSetIsSubmitting false] |}
  | Thrown registerError =>
      let errorMessage :=
        if instanceof_Error registerError then err_message registerError
        else "Registration failed" in
      {| app_after := final r; isSubmitting_after := false;
         ui_events := try_events
           ++ [UiHaptic "notificationAsync" "Error";
               UiAlert "Registration Error" errorMessage; UiSetIsSubmitting false] |}
  end.

End RegisterForm.

Module ForgotPasswordForm.

(** [handleResetPassword] of the forgot-password screen; the second
    component is the [emailSent] cell after it. *)
Definition handleResetPassword (E : Env) (email : string)
    (s : State) (emailSent : bool) : FormRun * bool :=
  let cleared := clearError s in
  let r := resetPassword E email (final cleared) in
  let try_events :=
    [UiSetIsSubmitting true] ++ map UiController (events cleared)
    ++ [UiHaptic "impactAsync" "Medium"] ++ map UiController (events r) in
  match outcome r with
  | Returned _ =>
      ({| app_after := final r; isSubmitting_after := false;
          ui_events := try_events
            ++ [UiHaptic "notificationAsync" "Success"; UiSetEmailSent true;
                UiSetIsSubmitting false] |}, true)
  | Thrown resetError =>
      let errorMessage :=
        if instanceof_Error resetError then err_message resetError
        else "Password reset failed" in
      ({| app_after := final r; isSubmitting_after := false;
          ui_events := try_events
            ++ [UiHaptic "notificationAsync" "Error"; UiAlert "Reset Error" errorMessage;
                UiSetIsSubmitting false] |}, emailSent)
  end.

End ForgotPasswordForm.

(** [editable={!isLoading && !isSubmitting}] of the inputs of the forms. *)
Definition editable (ss : Session) (isSubmitting : bool) : bool :=
  negb (isLoading ss) && negb isSubmitting.

(* ===================================================================== *)
(** ** Further vocabulary and test doubles *)
(* ===================================================================== *)

(** An event is a request. *)
Definition is_request (ev : Event) : bool :=
  match ev with EvRequest _ _ _ => true | _ => false end.

(** The one endpoint an operation talks to, if any. *)
Definition endpoint_of (op : Op) : option (string * string) :=
  match op with
  | OpCheckAuthStatus => Some ("GET", "/auth/me")
  | OpLogin _ => Some ("POST", "/auth/login")
  | OpRegister _ => Some ("POST", "/auth/register")
  | OpLogout => Some ("POST", "/auth/logout")
  | OpResetPassword _ => Some ("POST", "/auth/reset-password")
  | OpRefreshToken => Some ("POST", "/auth/refresh")
  | OpClearError => None
  end.

(** The store after the three writes of [storeAuthData]. *)
Definition stored {J : JSON} (d : AuthData) (m : gmap string string) : gmap string string :=
  <[USER_KEY := JSON_stringify (data_user d)]>
    (<[REFRESH_TOKEN_KEY := data_refreshToken d]> (<[TOKEN_KEY := data_token d]> m)).

(** An accepting backend over a store that rejects the write of the refresh
    token. *)
Definition env_refresh_write_fails : Env :=
  {| srv_login := fun _ _ => inr alice_body;
     srv_register := fun _ _ => inr alice_body;
     srv_resetPassword := fun _ _ => inr {| api_success := true; api_message := None |};
     srv_refresh := fun _ _ => inr alice_body;
     srv_logout := fun _ => inr {| api_success := true; api_message := None |};
     srv_me := fun _ => inr alice_body;
     set_fault := fun key _ =>
       if String.eqb key REFRESH_TOKEN_KEY then Some (new_Error "Keychain unavailable")
       else None |}.

(** A backend whose answer to GET /auth/me carries no data. *)
Definition env_me_without_data : Env :=
  {| srv_login := fun _ _ => inr alice_body;
     srv_register := fun _ _ => inr alice_body;
     srv_resetPassword := fun _ _ => inr {| api_success := true; api_message := None |};
     srv_refresh := fun _ _ => inr alice_body;
     srv_logout := fun _ => inr {| api_success := true; api_message := None |};
     srv_me := fun _ => inr {| success := false; data := None; message := None |};
     set_fault := fun _ _ => None |}.


(** A store whose serialized user is not something the codec reads. *)
Definition corrupt_store : gmap string string :=
  <[USER_KEY := "{{{"]> (<[REFRESH_TOKEN_KEY := "r0"]> (<[TOKEN_KEY := "t0"]> ∅)).

(* ===================================================================== *)
(** ** Reasoning about runs *)
(* ===================================================================== *)

Section WpRules.
Context {A B : Type}.
Implicit Types (s : State) (t : list Event).

Lemma wp_ret (a : A) s Q : Q (Returned a) s [] -> wp (mret a) s Q.
Proof. exact id. Qed.

Lemma wp_throw (e : JsError) s (Q : Outcome A -> _) :
  Q (Thrown e) s [] -> wp (throw e) s Q.
Proof. exact id. Qed.

Lemma wp_bind (m : M A) (k : A -> M B) s Q :
  wp m s (fun o s1 t1 =>
    match o with
    | Returned a => wp (k a) s1 (fun o' s2 t2 => Q o' s2 (t1 ++ t2))
    | Thrown e => Q (Thrown e) s1 t1
    end) ->
  wp (m ≫= k) s Q.
Proof.
  unfold wp, mbind, M_bind, bind. destruct (outcome (m s)); exact id.
Qed.

Lemma wp_try_catch (m : M A) (h : JsError -> M A) s Q :
  wp m s (fun o s1 t1 =>
    match o with
    | Returned a => Q (Returned a) s1 t1
    | Thrown e => wp (h e) s1 (fun o' s2 t2 => Q o' s2 (t1 ++ t2))
    end) ->
  wp (try_catch m h) s Q.
Proof.
  unfold wp, try_catch. destruct (m s) as [[a|e] s1 t1]; exact id.
Qed.

Lemma wp_try_finally (m : M A) (f : M unit) s Q :
  wp m s (fun o s1 t1 =>
    wp f s1 (fun o' s2 t2 =>
      Q (match o' with Returned _ => o | Thrown e => Thrown e end) s2 (t1 ++ t2))) ->
  wp (try_finally m f) s Q.
Proof. exact id. Qed.

End WpRules.

Lemma wp_setUser u s Q :
  Q (Returned tt) (with_user u s) [EvSetUser u] -> wp (setUser u) s Q.
Proof. exact id. Qed.

Lemma wp_setIsLoading b s Q :
  Q (Returned tt) (with_isLoading b s) [EvSetIsLoading b] -> wp (setIsLoading b) s Q.
Proof. exact id. Qed.

Lemma wp_setError e s Q :
  Q (Returned tt) (with_error e s) [EvSetError e] -> wp (setError e) s Q.
Proof. exact id. Qed.

Lemma wp_emit ev s Q : Q (Returned tt) s [ev] -> wp (emit ev) s Q.
Proof. exact id. Qed.

Lemma wp_getItemAsync key s Q :
  Q (Returned (store s !! key)) s [EvGetItem key] -> wp (SecureStore.getItemAsync key) s Q.
Proof. exact id. Qed.

Lemma wp_deleteItemAsync key s Q :
  Q (Returned tt) (with_store (delete key (store s)) s) [EvDeleteItem key] ->
  wp (SecureStore.deleteItemAsync key) s Q.
Proof. exact id. Qed.

Lemma wp_setItemAsync E key value s Q :
  match set_fault E key value with
  | Some e => Q (Thrown e) s [EvSetItem key value]
  | None => Q (Returned tt) (with_store (<[key := value]> (store s)) s) [EvSetItem key value]
  end ->
  wp (SecureStore.setItemAsync E key value) s Q.
Proof.
  unfold wp, SecureStore.setItemAsync. destruct (set_fault E key value); exact id.
Qed.

(** [formatError] always gives a plain [Error], and formatting a plain
    [Error] gives the generic message. *)
Lemma formatError_plain error :
  AuthService.formatError (AuthService.formatError error) = new_Error generic_message.
Proof.
  unfold AuthService.formatError at 2.
  repeat match goal with |- context [if ?b then _ else _] => destruct b end;
    reflexivity.
Qed.

(** The run of a client method: a request, and on rejection the error
    formatted by the interceptor and formatted again by the method. *)
Lemma wp_client_call {A B} method url (backend : option string -> JsError + A)
    (f : A -> B) s Q :
  match backend (bearer_of (store s)) with
  | inr body => Q (Returned (f body)) s (request_events method url s)
  | inl error =>
      Q (Thrown (new_Error generic_message)) s
        (request_events method url s ++ rejection_events error)
  end ->
  wp (try_catch
        (body ← AuthService.api_request method url backend; mret (f body))
        (fun error => throw (AuthService.formatError error))) s Q.
Proof.
  unfold wp, try_catch, mbind, M_bind, bind, AuthService.api_request,
    AuthService.getStoredToken, try_catch, mbind, M_bind, bind.
  cbn [SecureStore.getItemAsync outcome final events mret M_ret ret emit app].
  fold (bearer_of (store s)).
  destruct (backend (bearer_of (store s))) as [err|body]; [|exact id].
  unfold rejection_events, request_events, AuthService.handleTokenExpiration,
    console_warn, emit, throw.
  destruct (bool_decide _);
    cbn [outcome final events mret M_ret ret app];
    rewrite formatError_plain; exact id.
Qed.

Section ClientRuns.
Variables (E : Env) (s : State).

Lemma wp_AuthService_login credentials Q :
  match srv_login E credentials (bearer_of (store s)) with
  | inr body => Q (Returned body) s (request_events "POST" "/auth/login" s)
  | inl error =>
      Q (Thrown (new_Error generic_message)) s
        (request_events "POST" "/auth/login" s ++ rejection_events error)
  end ->
  wp (AuthService.login E credentials) s Q.
Proof. exact (wp_client_call _ _ _ (fun body => body) s Q). Qed.

Lemma wp_AuthService_register userData Q :
  match srv_register E userData (bearer_of (store s)) with
  | inr body => Q (Returned body) s (request_events "POST" "/auth/register" s)
  | inl error =>
      Q (Thrown (new_Error generic_message)) s
        (request_events "POST" "/auth/register" s ++ rejection_events error)
  end ->
  wp (AuthService.register E userData) s Q.
Proof. exact (wp_client_call _ _ _ (fun body => body) s Q). Qed.

Lemma wp_AuthService_resetPassword emailData Q :
  match srv_resetPassword E emailData (bearer_of (store s)) with
  | inr body => Q (Returned body) s (request_events "POST" "/auth/reset-password" s)
  | inl error =>
      Q (Thrown (new_Error generic_message)) s
        (request_events "POST" "/auth/reset-password" s ++ rejection_events error)
  end ->
  wp (AuthService.resetPassword E emailData) s Q.
Proof. exact (wp_client_call _ _ _ (fun body => body) s Q). Qed.

Lemma wp_AuthService_refreshToken token Q :
  match srv_refresh E token (bearer_of (store s)) with
  | inr body => Q (Returned body) s (request_events "POST" "/auth/refresh" s)
  | inl error =>
      Q (Thrown (new_Error generic_message)) s
        (request_events "POST" "/auth/refresh" s ++ rejection_events error)
  end ->
  wp (AuthService.refreshToken E token) s Q.
Proof. exact (wp_client_call _ _ _ (fun body => body) s Q). Qed.

Lemma wp_AuthService_logout Q :
  match srv_logout E (bearer_of (store s)) with
  | inr body => Q (Returned body) s (request_events "POST" "/auth/logout" s)
  | inl error =>
      Q (Thrown (new_Error generic_message)) s
        (request_events "POST" "/auth/logout" s ++ rejection_events error)
  end ->
  wp (AuthService.logout E) s Q.
Proof. exact (wp_client_call _ _ _ (fun body => body) s Q). Qed.

Lemma wp_AuthService_getCurrentUser Q :
  match srv_me E (bearer_of (store s)) with
  | inr body => Q (Returned (data body)) s (request_events "GET" "/auth/me" s)
  | inl error =>
      Q (Thrown (new_Error generic_message)) s
        (request_events "GET" "/auth/me" s ++ rejection_events error)
  end ->
  wp (AuthService.getCurrentUser E) s Q.
Proof. exact (wp_client_call _ _ _ data s Q). Qed.
End ClientRuns.

(** The run of a purge. *)
Lemma clearAuthData_run {J : JSON} s :
  clearAuthData s =
    mkRun (Returned tt)
      {| session := {| user := None; isLoading := isLoading (session s); error := None |};
         store := purged (store s) |}
      purge_events.
Proof. reflexivity. Qed.

Lemma wp_clearAuthData {J : JSON} s Q :
  Q (Returned tt)
    {| session := {| user := None; isLoading := isLoading (session s); error := None |};
       store := purged (store s) |}
    purge_events ->
  wp clearAuthData s Q.
Proof. exact id. Qed.

Lemma purged_bundle_absent m : bundle_absent (purged m).
Proof.
  unfold bundle_absent, purged, TOKEN_KEY, REFRESH_TOKEN_KEY, USER_KEY.
  repeat split; by simplify_map_eq.
Qed.

Ltac wp_simpl :=
  cbn [app session store user isLoading error with_user with_isLoading with_error
       with_store startup_state outcome final events request_events].

(** Split on the status of a rejection, so that the events are a literal
    list. *)
Ltac split_rejections :=
  unfold rejection_events;
  repeat match goal with
         | |- context [bool_decide (status <$> response ?e = Some 401)] =>
             destruct (bool_decide (status <$> response e = Some 401))
         end;
  wp_simpl.

(** Membership of an event in a literal list of events. *)
Ltac elem_cases H :=
  repeat (apply elem_of_cons in H as [H|H]; [try discriminate H|]);
  try (apply elem_of_nil in H; destruct H).

Lemma contains_purge_here t : contains_purge (purge_events ++ t).
Proof. by exists [], t. Qed.

Lemma contains_purge_cons ev t : contains_purge t -> contains_purge (ev :: t).
Proof. intros (b & a & ->). by exists (ev :: b), a. Qed.

Ltac find_purge :=
  repeat first [ apply (contains_purge_here _) | apply contains_purge_cons ].

(** Branch on a scrutinee, or take the branch a hypothesis gives. *)
Ltac case_on x :=
  first [ match goal with H : x = _ |- _ => rewrite H end | destruct x eqn:? ].

Ltac wp_step :=
  lazymatch goal with
  | |- wp (mbind _ _) _ _ => apply wp_bind
  | |- wp (mret _) _ _ => apply wp_ret
  | |- wp (throw _) _ _ => apply wp_throw
  | |- wp (try_catch _ _) _ _ => apply wp_try_catch
  | |- wp (try_finally _ _) _ _ => apply wp_try_finally
  | |- wp (try_catch_finally _ _ _) _ _ => unfold try_catch_finally
  | |- wp (setUser _) _ _ => apply wp_setUser
  | |- wp (setIsLoading _) _ _ => apply wp_setIsLoading
  | |- wp (setError _) _ _ => apply wp_setError
  | |- wp (emit _) _ _ => apply wp_emit
  | |- wp (console_warn _) _ _ => apply wp_emit
  | |- wp (console_error _) _ _ => apply wp_emit
  | |- wp (SecureStore.getItemAsync _) _ _ => apply wp_getItemAsync
  | |- wp (SecureStore.deleteItemAsync _) _ _ => apply wp_deleteItemAsync
  | |- wp (SecureStore.setItemAsync _ _ _) _ _ => apply wp_setItemAsync
  | |- wp clearAuthData _ _ => apply wp_clearAuthData
  | |- wp (AuthService.login _ _) _ _ => apply wp_AuthService_login
  | |- wp (AuthService.register _ _) _ _ => apply wp_AuthService_register
  | |- wp (AuthService.resetPassword _ _) _ _ => apply wp_AuthService_resetPassword
  | |- wp (AuthService.refreshToken _ _) _ _ => apply wp_AuthService_refreshToken
  | |- wp (AuthService.logout _) _ _ => apply wp_AuthService_logout
  | |- wp (AuthService.getCurrentUser _) _ _ => apply wp_AuthService_getCurrentUser
  | |- wp (storeAuthData _ _) _ _ => unfold storeAuthData
  | |- wp (parse _) _ _ => unfold parse
  | |- wp (login_catch _) _ _ => unfold login_catch, instanceof_Error
  | |- wp (register_catch _) _ _ => unfold register_catch, instanceof_Error
  | |- wp (logout_catch _) _ _ => unfold logout_catch, instanceof_Error
  | |- wp (resetPassword_catch _) _ _ => unfold resetPassword_catch, instanceof_Error
  | |- wp (refreshToken_catch _) _ _ => unfold refreshToken_catch, instanceof_Error
  | |- wp (if ?b then _ else _) _ _ => case_on b
  | |- wp (match ?x with _ => _ end) _ _ => case_on x
  | |- match set_fault ?E ?k ?v with _ => _ end => case_on (set_fault E k v)
  | |- match ?f (bearer_of ?m) with _ => _ end => case_on (f (bearer_of m))
  end; wp_simpl.

Ltac wp_run := repeat wp_step.

(* ===================================================================== *)
(** ** The scenarios of the specification, run on the model *)
(* ===================================================================== *)

(** Scenario A: an empty store at startup. *)
Example scenario_empty_store :
  session (final (checkAuthStatus (J := stub_json) env_ok (startup_state ∅)))
  = {| user := None; isLoading := false; error := None |}.
Proof. vm_compute. reflexivity. Qed.

(** Scenario B: a stored bundle, and the backend knows the current user. *)
Example scenario_token_accepted :
  user (session (final (checkAuthStatus (J := stub_json) env_ok (startup_state stale_store))))
    = Some alice /\
  store (final (checkAuthStatus (J := stub_json) env_ok (startup_state stale_store)))
    !! USER_KEY = Some (stub_stringify alice).
Proof. split; vm_compute; reflexivity. Qed.

(** Scenario C: a stored bundle, and the request for the current user is
    rejected. *)
Example scenario_token_rejected :
  user (session (final
    (checkAuthStatus (J := stub_json) env_reject (startup_state alice_store)))) = None /\
  store (final (checkAuthStatus (J := stub_json) env_reject (startup_state alice_store)))
    = ∅.
Proof. split; vm_compute; reflexivity. Qed.

(** Scenario D: a login the backend accepts. *)
Example scenario_login :
  let r := login (J := stub_json) env_ok alice_credentials (startup_state ∅) in
  outcome r = Returned tt /\
  store (final r) !! TOKEN_KEY = Some "t1" /\
  store (final r) !! REFRESH_TOKEN_KEY = Some "r1" /\
  store (final r) !! USER_KEY = Some (stub_stringify alice) /\
  isAuthenticated (session (final r)) = true.
Proof. repeat split; vm_compute; reflexivity. Qed.

(** Scenario E: a refresh with nothing stored. *)
Example scenario_refresh_without_token :
  let r := refreshToken (J := stub_json) env_ok (startup_state ∅) in
  outcome r = Thrown (new_Error "No refresh token available") /\
  store (final r) = ∅ /\
  user (session (final r)) = None.
Proof. repeat split; vm_compute; reflexivity. Qed.

(* ===================================================================== *)
(** ** Logout *)
(* ===================================================================== *)

(** C3.  From every session and every store, whatever the backend answers to
    the logout request, [logout] returns normally, and leaves [user] null
    and the three keys of the Credential Bundle absent from the store. *)
Theorem logout_purges_unconditionally {J : JSON} (E : Env) (s : State) :
  outcome (logout E s) = Returned tt /\
  user (session (final (logout E s))) = None /\
  bundle_absent (store (final (logout E s))).
Proof.
  change (wp (logout E) s (fun o s' _ =>
    o = Returned tt /\ user (session s') = None /\ bundle_absent (store s'))).
  unfold logout, logout_try.
  wp_run; auto using purged_bundle_absent.
Qed.

(* ===================================================================== *)
(** ** The loading flag *)
(* ===================================================================== *)

(** C1, as amended.  [login], [register] and [resetPassword] set
    [isLoading=true] and then [error=null] before anything else, and set
    [isLoading=false] last, on every exit.  [logout] sets [isLoading=true]
    first and [isLoading=false] last, but goes on to the logout request
    without resetting [error].  [refreshToken] never sets [isLoading], which
    keeps the value it had, and begins by reading the refresh token. *)
Theorem loading_flag_discipline {J : JSON} (E : Env) (s : State) :
  (forall credentials, loading_discipline (login E credentials s)) /\
  (forall userData, loading_discipline (register E userData s)) /\
  (forall email, loading_discipline (resetPassword E email s)) /\
  ((exists rest,
      events (logout E s) = EvSetIsLoading true :: EvGetItem "auth_token" :: rest) /\
   releases_loading_at_exit (logout E s)) /\
  ((exists rest, events (refreshToken E s) = EvGetItem REFRESH_TOKEN_KEY :: rest) /\
   isLoading (session (final (refreshToken E s))) = isLoading (session s) /\
   forall b, EvSetIsLoading b ∉ events (refreshToken E s)).
Proof.
  unfold loading_discipline, sets_flags_at_entry, releases_loading_at_exit.
  repeat apply conj.
  - intros credentials.
    change (wp (login E credentials) s (fun _ s' t =>
      (exists rest, t = EvSetIsLoading true :: EvSetError None :: rest) /\
      isLoading (session s') = false /\ last t = Some (EvSetIsLoading false))).
    unfold login, login_try. wp_run; split_rejections; eauto.
  - intros userData.
    change (wp (register E userData) s (fun _ s' t =>
      (exists rest, t = EvSetIsLoading true :: EvSetError None :: rest) /\
      isLoading (session s') = false /\ last t = Some (EvSetIsLoading false))).
    unfold register, register_try. wp_run; split_rejections; eauto.
  - intros email.
    change (wp (resetPassword E email) s (fun _ s' t =>
      (exists rest, t = EvSetIsLoading true :: EvSetError None :: rest) /\
      isLoading (session s') = false /\ last t = Some (EvSetIsLoading false))).
    unfold resetPassword, resetPassword_try. wp_run; split_rejections; eauto.
  - change (wp (logout E) s (fun _ _ t =>
      exists rest, t = EvSetIsLoading true :: EvGetItem "auth_token" :: rest)).
    unfold logout, logout_try. wp_run; eauto.
  - change (wp (logout E) s (fun _ s' _ => isLoading (session s') = false)).
    unfold logout, logout_try. wp_run; eauto.
  - change (wp (logout E) s (fun _ _ t => last t = Some (EvSetIsLoading false))).
    unfold logout, logout_try. wp_run; split_rejections; eauto.
  - change (wp (refreshToken E) s (fun _ _ t =>
      exists rest, t = EvGetItem REFRESH_TOKEN_KEY :: rest)).
    unfold refreshToken, refreshToken_try. wp_run; eauto.
  - change (wp (refreshToken E) s (fun _ s' _ =>
      isLoading (session s') = isLoading (session s))).
    unfold refreshToken, refreshToken_try. wp_run; eauto.
  - intros b.
    change (wp (refreshToken E) s (fun _ _ t => EvSetIsLoading b ∉ t)).
    unfold refreshToken, refreshToken_try.
    wp_run; split_rejections; unfold purge_events; intros Hin; elem_cases Hin.
Qed.


(** C1, as stated, fails.  [refreshToken], called while the session is
    still loading and the backend rejects the refresh, does not begin by
    setting the two flags and throws with [isLoading] still true; [logout]
    does not reset [error] at its entry. *)
Lemma refreshToken_and_logout_break_loading_discipline :
  ~ loading_discipline (refreshToken (J := stub_json) env_reject (startup_state alice_store)) /\
  outcome (refreshToken (J := stub_json) env_reject (startup_state alice_store))
    = Thrown (new_Error generic_message) /\
  isLoading (session (final
    (refreshToken (J := stub_json) env_reject (startup_state alice_store)))) = true /\
  ~ loading_discipline (logout env_ok alice_state).
Proof.
  repeat apply conj.
  - intros [[rest Hev] _]. vm_compute in Hev. discriminate Hev.
  - vm_compute. reflexivity.
  - vm_compute. reflexivity.
  - intros [[rest Hev] _]. vm_compute in Hev. discriminate Hev.
Qed.

(* ===================================================================== *)
(** ** The purge *)
(* ===================================================================== *)

(** Whenever an operation deletes a key of the store, its events contain a
    whole purge: the three deletions, [user=null], [error=null]. *)
Lemma deletion_is_purge {J : JSON} (E : Env) (op : Op) (s : State) (key : string) :
  EvDeleteItem key ∈ events (run_op E op s) ->
  contains_purge (events (run_op E op s)).
Proof.
  change (wp (run_op E op) s (fun _ _ t => EvDeleteItem key ∈ t -> contains_purge t)).
  destruct op; unfold run_op;
    unfold checkAuthStatus, checkAuthStatus_try, login, login_try, register,
      register_try, logout, logout_try, resetPassword, resetPassword_try,
      refreshToken, refreshToken_try, clearError;
    wp_run; split_rejections; intros Hin;
    first [ solve [find_purge] | exfalso; elem_cases Hin ].
Qed.

(** C10.  The purge itself sets [error=null] after the deletions; every
    operation that deletes a key (a logout, a failed refresh, a failed
    startup reconciliation) does so through a whole purge; and [logout]
    always returns normally with [error=null], the purge being the only
    place where it sets [error]. *)
Theorem purge_resets_error {J : JSON} (E : Env) (s : State) :
  (events (clearAuthData s) = purge_events /\
   error (session (final (clearAuthData s))) = None) /\
  (forall op key,
     EvDeleteItem key ∈ events (run_op E op s) ->
     contains_purge (events (run_op E op s))) /\
  (outcome (logout E s) = Returned tt /\
   error (session (final (logout E s))) = None /\
   exists before,
     events (logout E s)
       = EvSetIsLoading true :: before ++ purge_events ++ [EvSetIsLoading false] /\
     forall e, EvSetError e ∉ before).
Proof.
  split; [split; reflexivity|].
  split; [intros op key; apply deletion_is_purge|].
  change (wp (logout E) s (fun o s' t =>
    o = Returned tt /\ error (session s') = None /\
    exists before,
      t = EvSetIsLoading true :: before ++ purge_events ++ [EvSetIsLoading false] /\
      forall e, EvSetError e ∉ before)).
  unfold logout, logout_try.
  wp_run; split_rejections; (split; [reflexivity|split; [reflexivity|]]).
  all: first
    [ exists [EvGetItem "auth_token"; EvRequest "POST" "/auth/logout" (bearer_of (store s))];
      split; [reflexivity|intros e Hin; elem_cases Hin]
    | exists [EvGetItem "auth_token"; EvRequest "POST" "/auth/logout" (bearer_of (store s));
              EvConsole "warn" "Token expired"; EvConsole "warn" "Server logout failed:"];
      split; [reflexivity|intros e Hin; elem_cases Hin]
    | exists [EvGetItem "auth_token"; EvRequest "POST" "/auth/logout" (bearer_of (store s));
              EvConsole "warn" "Server logout failed:"];
      split; [reflexivity|intros e Hin; elem_cases Hin] ].
Qed.

Lemma purge_resets_error_witness :
  EvDeleteItem USER_KEY
    ∈ events (run_op (J := stub_json) env_reject OpRefreshToken alice_state) /\
  contains_purge (events (run_op (J := stub_json) env_reject OpRefreshToken alice_state)).
Proof.
  assert (Hin : EvDeleteItem USER_KEY
            ∈ events (run_op (J := stub_json) env_reject OpRefreshToken alice_state)).
  { vm_compute. repeat constructor. }
  split; [exact Hin|].
  exact (proj1 (proj2 (purge_resets_error (J := stub_json) env_reject alice_state))
           OpRefreshToken USER_KEY Hin).
Defined.

(* ===================================================================== *)
(** ** Token refresh *)
(* ===================================================================== *)

(** When the [try] block of a [try]/[catch] throws, the run is that of the
    handler from where the block stopped. *)
Lemma try_catch_thrown {A} (m : M A) (h : JsError -> M A) s e :
  outcome (m s) = Thrown e ->
  try_catch m h s
    = mkRun (outcome (h e (final (m s)))) (final (h e (final (m s))))
            (events (m s) ++ events (h e (final (m s)))).
Proof. intros Hthrown. unfold try_catch. by rewrite Hthrown. Qed.

Lemma purged_empty : purged ∅ = ∅.
Proof. unfold purged. by rewrite !delete_empty. Qed.

(** C4.  A failure inside [refreshToken] is thrown again to the caller;
    whenever [refreshToken] throws, the Credential Bundle is gone from the
    store, [user] is null and [error] holds the message of the error thrown;
    and without a stored refresh token it throws
    "No refresh token available", with [user] null, and an empty store
    stays empty. *)
Theorem refreshToken_failure_invalidates {J : JSON} (E : Env) (s : State) :
  (forall e, outcome (refreshToken_try E s) = Thrown e ->
             outcome (refreshToken E s) = Thrown e) /\
  (forall e, outcome (refreshToken E s) = Thrown e ->
     bundle_absent (store (final (refreshToken E s))) /\
     user (session (final (refreshToken E s))) = None /\
     error (session (final (refreshToken E s))) = Some (err_message e)) /\
  (store s !! REFRESH_TOKEN_KEY = None ->
     outcome (refreshToken E s) = Thrown (new_Error "No refresh token available") /\
     error (session (final (refreshToken E s))) = Some "No refresh token available" /\
     user (session (final (refreshToken E s))) = None /\
     (store s = ∅ -> store (final (refreshToken E s)) = ∅)).
Proof.
  repeat apply conj.
  - intros e Hthrown. unfold refreshToken.
    rewrite (try_catch_thrown _ _ _ _ Hthrown). reflexivity.
  - change (wp (refreshToken E) s (fun o s' _ =>
      forall e, o = Thrown e ->
        bundle_absent (store s') /\ user (session s') = None /\
        error (session s') = Some (err_message e))).
    unfold refreshToken, refreshToken_try.
    wp_run; intros e' [= <-]; auto using purged_bundle_absent.
  - intros Hnone.
    change (wp (refreshToken E) s (fun o s' _ =>
      o = Thrown (new_Error "No refresh token available") /\
      error (session s') = Some "No refresh token available" /\
      user (session s') = None /\
      (store s = ∅ -> store s' = ∅))).
    unfold refreshToken, refreshToken_try.
    wp_run;
      try match goal with
          | Hb : negb (truthy _) = false |- _ => rewrite Hnone in Hb; discriminate Hb
          end.
    repeat split. intros ->. apply purged_empty.
Qed.

Lemma refreshToken_failure_invalidates_witness :
  outcome (refreshToken (J := stub_json) env_reject alice_state)
    = Thrown (new_Error generic_message) /\
  bundle_absent (store (final (refreshToken (J := stub_json) env_reject alice_state))) /\
  error (session (final (refreshToken (J := stub_json) env_reject alice_state)))
    = Some generic_message /\
  outcome (refreshToken (J := stub_json) env_ok (startup_state ∅))
    = Thrown (new_Error "No refresh token available") /\
  store (final (refreshToken (J := stub_json) env_ok (startup_state ∅))) = ∅.
Proof.
  pose proof (refreshToken_failure_invalidates (J := stub_json) env_reject alice_state)
    as (Hrethrown & Hfail & _).
  pose proof (refreshToken_failure_invalidates (J := stub_json) env_ok (startup_state ∅))
    as (_ & _ & Hnone).
  assert (Hthrown : outcome (refreshToken_try (J := stub_json) env_reject alice_state)
                    = Thrown (new_Error generic_message)) by (vm_compute; reflexivity).
  specialize (Hrethrown _ Hthrown).
  destruct (Hfail _ Hrethrown) as (Habsent & _ & Herror).
  destruct (Hnone eq_refl) as (Hmsg & _ & _ & Hempty).
  exact (conj Hrethrown (conj Habsent (conj Herror (conj Hmsg (Hempty eq_refl))))).
Defined.

(* ===================================================================== *)
(** ** Login *)
(* ===================================================================== *)

(** What makes a login fail: the request is rejected (by the backend or by
    the transport), the backend answers without success or without data, the
    data carry no token, or one of the three writes to the store fails. *)
Lemma login_failure_causes {J : JSON} (E : Env) credentials (s : State) :
  (forall err, srv_login E credentials (bearer_of (store s)) = inl err ->
     outcome (login E credentials s) = Thrown (new_Error generic_message)) /\
  (forall body, srv_login E credentials (bearer_of (store s)) = inr body ->
     success body && bool_decide (is_Some (data body)) = false ->
     outcome (login E credentials s)
       = Thrown (new_Error (or_else (message body) "Login failed"))) /\
  (forall body d, srv_login E credentials (bearer_of (store s)) = inr body ->
     success body = true -> data body = Some d -> data_token d = "" ->
     outcome (login E credentials s)
       = Thrown (new_Error "Invalid authentication data received")) /\
  (forall body d, srv_login E credentials (bearer_of (store s)) = inr body ->
     success body = true -> data body = Some d -> data_token d <> "" ->
     is_Some (set_fault E TOKEN_KEY (data_token d)) \/
     is_Some (set_fault E REFRESH_TOKEN_KEY (data_refreshToken d)) \/
     is_Some (set_fault E USER_KEY (JSON_stringify (data_user d))) ->
     outcome (login E credentials s)
       = Thrown (new_Error "Failed to store authentication data")).
Proof.
  repeat apply conj.
  - intros err Herr.
    change (wp (login E credentials) s (fun o _ _ =>
      o = Thrown (new_Error generic_message))).
    unfold login, login_try. wp_run. reflexivity.
  - intros body Hbody Hno.
    change (wp (login E credentials) s (fun o _ _ =>
      o = Thrown (new_Error (or_else (message body) "Login failed")))).
    unfold login, login_try. wp_run. reflexivity.
  - intros body d Hbody Hsuccess Hdata Htoken.
    assert (Hyes : success body && bool_decide (is_Some (data body)) = true)
      by (rewrite Hsuccess, Hdata; reflexivity).
    assert (Hempty : negb (truthy (Some (data_token d))) = true)
      by (rewrite Htoken; reflexivity).
    change (wp (login E credentials) s (fun o _ _ =>
      o = Thrown (new_Error "Invalid authentication data received"))).
    unfold login, login_try. wp_run. reflexivity.
  - intros body d Hbody Hsuccess Hdata Htoken Hfault.
    assert (Hyes : success body && bool_decide (is_Some (data body)) = true)
      by (rewrite Hsuccess, Hdata; reflexivity).
    assert (Hfull : negb (truthy (Some (data_token d))) = false).
    { apply negb_false_iff, negb_true_iff, String.eqb_neq, Htoken. }
    change (wp (login E credentials) s (fun o _ _ =>
      o = Thrown (new_Error "Failed to store authentication data"))).
    unfold login, login_try.
    destruct Hfault as [[e He]|[[e He]|[e He]]]; wp_run; reflexivity.
Qed.

(** C6.  A failure inside [login] is thrown again to the caller; and
    whenever [login] throws, [user] is what it was before the call and
    [error] holds the message of the error thrown. *)
Theorem login_failure_recorded {J : JSON} (E : Env) credentials (s : State) :
  (forall e, outcome (login_try E credentials s) = Thrown e ->
             outcome (login E credentials s) = Thrown e) /\
  (forall e, outcome (login E credentials s) = Thrown e ->
     user (session (final (login E credentials s))) = user (session s) /\
     error (session (final (login E credentials s))) = Some (err_message e)).
Proof.
  split.
  - intros e Hthrown. unfold login, try_catch_finally, try_finally.
    rewrite (try_catch_thrown _ _ _ _ Hthrown). reflexivity.
  - change (wp (login E credentials) s (fun o s' _ =>
      forall e, o = Thrown e ->
        user (session s') = user (session s) /\
        error (session s') = Some (err_message e))).
    unfold login, login_try.
    wp_run; intros e' [= <-]; auto.
Qed.

Lemma login_failure_recorded_witness :
  outcome (login (J := stub_json) env_reject alice_credentials alice_state)
    = Thrown (new_Error generic_message) /\
  user (session (final (login (J := stub_json) env_reject alice_credentials alice_state)))
    = Some alice /\
  error (session (final (login (J := stub_json) env_reject alice_credentials alice_state)))
    = Some generic_message.
Proof.
  pose proof (login_failure_recorded (J := stub_json) env_reject alice_credentials alice_state)
    as (Hrethrown & Hfail).
  assert (Hthrown : outcome (login_try (J := stub_json) env_reject alice_credentials alice_state)
                    = Thrown (new_Error generic_message)) by (vm_compute; reflexivity).
  specialize (Hrethrown _ Hthrown).
  destruct (Hfail _ Hrethrown) as (Huser & Herror).
  exact (conj Hrethrown (conj Huser Herror)).
Defined.

(* ===================================================================== *)
(** ** Startup reconciliation *)
(* ===================================================================== *)

(** C9.  At startup, with exactly one of the access token and the
    serialized user in the store, the reconciliation only reads the two
    keys: the store is left as it was, no request is sent, [user] is still
    null, and [isLoading] ends false. *)
Theorem partial_bundle_left_alone {J : JSON} (E : Env) (st : gmap string string) :
  (is_Some (st !! TOKEN_KEY) /\ st !! USER_KEY = None) \/
  (st !! TOKEN_KEY = None /\ is_Some (st !! USER_KEY)) ->
  outcome (checkAuthStatus E (startup_state st)) = Returned tt /\
  store (final (checkAuthStatus E (startup_state st))) = st /\
  events (checkAuthStatus E (startup_state st))
    = [EvSetIsLoading true; EvGetItem TOKEN_KEY; EvGetItem USER_KEY;
       EvSetIsLoading false] /\
  (forall method url bearer,
     EvRequest method url bearer ∉ events (checkAuthStatus E (startup_state st))) /\
  user (session (final (checkAuthStatus E (startup_state st)))) = None /\
  isLoading (session (final (checkAuthStatus E (startup_state st)))) = false.
Proof.
  intros Hone.
  assert (Hnot : truthy (st !! TOKEN_KEY) && truthy (st !! USER_KEY) = false).
  { destruct Hone as [[_ ->]|[-> _]]; [apply andb_false_r|reflexivity]. }
  change (wp (checkAuthStatus E) (startup_state st) (fun o s' t =>
    o = Returned tt /\ store s' = st /\
    t = [EvSetIsLoading true; EvGetItem TOKEN_KEY; EvGetItem USER_KEY;
         EvSetIsLoading false] /\
    (forall method url bearer, EvRequest method url bearer ∉ t) /\
    user (session s') = None /\ isLoading (session s') = false)).
  unfold checkAuthStatus, checkAuthStatus_try. wp_run.
  repeat split. intros method url bearer Hin. elem_cases Hin.
Qed.

Lemma partial_bundle_left_alone_witness :
  store (final (checkAuthStatus (J := stub_json) env_reject (startup_state token_only_store)))
    = token_only_store /\
  user (session (final
    (checkAuthStatus (J := stub_json) env_reject (startup_state token_only_store)))) = None.
Proof.
  assert (Hone : (is_Some (token_only_store !! TOKEN_KEY) /\
                  token_only_store !! USER_KEY = None) \/
                 (token_only_store !! TOKEN_KEY = None /\
                  is_Some (token_only_store !! USER_KEY))).
  { left. split; [exists "t0"|]; reflexivity. }
  destruct (partial_bundle_left_alone (J := stub_json) env_reject token_only_store Hone)
    as (_ & Hstore & _ & _ & Huser & _).
  exact (conj Hstore Huser).
Defined.




Lemma lookup_purged_token m : purged m !! TOKEN_KEY = None.
Proof. apply purged_bundle_absent. Qed.


Lemma lookup_insert_user_token (m : gmap string string) v :
  <[USER_KEY := v]> m !! TOKEN_KEY = m !! TOKEN_KEY.
Proof. by apply lookup_insert_ne. Qed.






(* ===================================================================== *)
(** ** The visible session *)
(* ===================================================================== *)

Lemma truthy_is_Some (v : option string) : truthy v = true -> is_Some v.
Proof. destruct v; [eauto|discriminate]. Qed.

Lemma lookup_stored_token (m : gmap string string) a b c :
  is_Some (<[USER_KEY := c]> (<[REFRESH_TOKEN_KEY := b]> (<[TOKEN_KEY := a]> m))
             !! TOKEN_KEY).
Proof.
  exists a. unfold USER_KEY, REFRESH_TOKEN_KEY, TOKEN_KEY. by simplify_map_eq.
Qed.

Lemma lookup_stored_token_2 (m : gmap string string) a b :
  is_Some (<[REFRESH_TOKEN_KEY := b]> (<[TOKEN_KEY := a]> m) !! TOKEN_KEY).
Proof. exists a. unfold REFRESH_TOKEN_KEY, TOKEN_KEY. by simplify_map_eq. Qed.

Lemma lookup_stored_token_1 (m : gmap string string) a :
  is_Some (<[TOKEN_KEY := a]> m !! TOKEN_KEY).
Proof. exists a. apply lookup_insert_eq. Qed.

(** Every operation keeps the session consistent. *)
Lemma run_op_consistent {J : JSON} (E : Env) (op : Op) (s : State) :
  session_consistent s -> session_consistent (final (run_op E op s)).
Proof.
  change (wp (run_op E op) s (fun _ s' _ =>
    session_consistent s -> session_consistent s')).
  unfold session_consistent.
  destruct op; unfold run_op;
    unfold checkAuthStatus, checkAuthStatus_try, login, login_try, register,
      register_try, logout, logout_try, resetPassword, resetPassword_try,
      refreshToken, refreshToken_try, clearError;
    wp_run; intros Hs Hu;
    rewrite ?lookup_insert_user_token;
    first [ by destruct Hu
          | by apply Hs
          | apply lookup_stored_token
          | apply lookup_stored_token_2
          | apply lookup_stored_token_1
          | match goal with
            | Hb : truthy (_ !! TOKEN_KEY) && _ = true |- _ =>
                apply truthy_is_Some, (proj1 (andb_true_iff _ _) Hb)
            end ].
Qed.

Lemma run_ops_consistent {J : JSON} (ops : list (Env * Op)) (s : State) :
  session_consistent s -> session_consistent (run_ops ops s).
Proof.
  revert s. induction ops as [|[E op] ops IH]; intros s Hs; [exact Hs|].
  cbn [run_ops]. apply IH, run_op_consistent, Hs.
Qed.

(** C7.  After any history of operations of the Session Controller (the
    startup reconciliation, login, register, logout, resetPassword,
    refreshToken, clearError, in any order, each returning or throwing, against
    any backend), started from the state at mount over any store,
    [isAuthenticated] is true exactly when [user] is not null and an access
    token is in the store. *)
Theorem isAuthenticated_iff_user_and_token {J : JSON}
    (st : gmap string string) (ops : list (Env * Op)) :
  isAuthenticated (session (run_ops ops (startup_state st))) = true <->
  user (session (run_ops ops (startup_state st))) <> None /\
  is_Some (store (run_ops ops (startup_state st)) !! TOKEN_KEY).
Proof.
  assert (Hc : session_consistent (run_ops ops (startup_state st))).
  { apply run_ops_consistent. intros Hu. by destruct Hu. }
  unfold session_consistent in Hc. unfold isAuthenticated.
  destruct (user (session (run_ops ops (startup_state st)))) as [u|].
  - split; [intros _; split; [discriminate|apply Hc; discriminate]|reflexivity].
  - split; [discriminate|intros [Hu _]; by destruct Hu].
Qed.

(* ===================================================================== *)
(** ** The message of a client failure *)
(* ===================================================================== *)

(** Applied once to the error of a rejected request, [formatError] gives the
    message the precedence asks for (an empty string counting as absent). *)
Lemma formatError_precedence (error : JsError) :
  (response error ≫= response_data) ≫= payload_message <> Some "" ->
  (response error ≫= response_data) ≫= payload_error <> Some "" ->
  err_message (AuthService.formatError error) = precedence_message error.
Proof.
  unfold AuthService.formatError, precedence_message.
  destruct (response error ≫= response_data) as [[[m|] [m'|]]|];
    cbn; intros Hm Hm'; repeat case_match; simplify_eq; try reflexivity.
  all: match goal with
       | Hempty : negb (String.eqb ?x "") = false |- _ =>
           apply negb_false_iff, String.eqb_eq in Hempty; subst x; congruence
       end.
Qed.

(** Every error a client method throws is the plain [Error] with the generic
    message, whatever the rejected request carried: the response interceptor
    has already replaced the error by [formatError] of it when the method's
    own [catch] applies [formatError] again. *)
Lemma client_failures_are_generic (E : Env) (s : State) (e : JsError) :
  (forall credentials, outcome (AuthService.login E credentials s) = Thrown e ->
     e = new_Error generic_message) /\
  (forall userData, outcome (AuthService.register E userData s) = Thrown e ->
     e = new_Error generic_message) /\
  (forall emailData, outcome (AuthService.resetPassword E emailData s) = Thrown e ->
     e = new_Error generic_message) /\
  (forall token, outcome (AuthService.refreshToken E token s) = Thrown e ->
     e = new_Error generic_message) /\
  (outcome (AuthService.logout E s) = Thrown e -> e = new_Error generic_message) /\
  (outcome (AuthService.getCurrentUser E s) = Thrown e -> e = new_Error generic_message).
Proof.
  repeat apply conj; intros;
    match goal with
    | Hthrown : outcome (?m s) = Thrown e |- _ =>
        revert Hthrown;
        change (wp m s (fun o _ _ => o = Thrown e -> e = new_Error generic_message))
    end;
    wp_run; congruence.
Qed.

(** C2, on the code.  The backend rejects a login with status 401 and the
    payload message "Invalid credentials".  The precedence asks for that
    message, and one application of [formatError] gives it; but the error
    that [AuthService.login] throws to the Session Controller carries the
    generic message, and so does the [error] the controller records. *)
Theorem rejected_login_loses_server_message :
  precedence_message invalid_credentials = "Invalid credentials" /\
  err_message (AuthService.formatError invalid_credentials) = "Invalid credentials" /\
  outcome (AuthService.login env_reject alice_credentials (startup_state ∅))
    = Thrown (new_Error "An unexpected error occurred. Please try again.") /\
  error (session (final
    (login (J := stub_json) env_reject alice_credentials (startup_state ∅))))
    = Some "An unexpected error occurred. Please try again.".
Proof. repeat split; vm_compute; reflexivity. Qed.

(* ===================================================================== *)
(** ** More on the startup reconciliation *)
(* ===================================================================== *)

(** X1.  [checkAuthStatus] never throws: whatever the store holds, the
    backend answers or the store refuses, every error is caught and the run
    returns. *)
Theorem checkAuthStatus_never_throws {J : JSON} (E : Env) (s : State) :
  outcome (checkAuthStatus E s) = Returned tt.
Proof.
  change (wp (checkAuthStatus E) s (fun o _ _ => o = Returned tt)).
  unfold checkAuthStatus, checkAuthStatus_try. wp_run; reflexivity.
Qed.

(** X2.  With a usable token and a readable serialized user in the store,
    when the backend answers the request for the current user: with data,
    and the write succeeds, [user] is the fetched user and only the
    serialized user changes in the store; without data, [user] is the cached
    user and the store is untouched. *)
Theorem checkAuthStatus_token_accepted {J : JSON} (E : Env) (s : State) cached body :
  truthy (store s !! TOKEN_KEY) && truthy (store s !! USER_KEY) = true ->
  JSON_parse (default "" (store s !! USER_KEY)) = inr cached ->
  srv_me E (bearer_of (store s)) = inr body ->
  (forall d, data body = Some d ->
     set_fault E USER_KEY (JSON_stringify (data_user d)) = None ->
     user (session (final (checkAuthStatus E s))) = Some (data_user d) /\
     store (final (checkAuthStatus E s))
       = <[USER_KEY := JSON_stringify (data_user d)]> (store s)) /\
  (data body = None ->
     user (session (final (checkAuthStatus E s))) = cached /\
     store (final (checkAuthStatus E s)) = store s).
Proof.
  intros Hboth Hparse Hme. split.
  - intros d Hdata Hwrite.
    change (wp (checkAuthStatus E) s (fun _ s' _ =>
      user (session s') = Some (data_user d) /\
      store s' = <[USER_KEY := JSON_stringify (data_user d)]> (store s))).
    unfold checkAuthStatus, checkAuthStatus_try. wp_run. split; reflexivity.
  - intros Hdata.
    change (wp (checkAuthStatus E) s (fun _ s' _ =>
      user (session s') = cached /\ store s' = store s)).
    unfold checkAuthStatus, checkAuthStatus_try. wp_run. split; reflexivity.
Qed.

Lemma checkAuthStatus_token_accepted_witness :
  user (session (final (checkAuthStatus (J := stub_json) env_ok (startup_state stale_store))))
    = Some alice /\
  store (final (checkAuthStatus (J := stub_json) env_me_without_data
                  (startup_state stale_store))) = stale_store.
Proof.
  split.
  - refine (proj1 (proj1 (checkAuthStatus_token_accepted (J := stub_json) env_ok
              (startup_state stale_store)
              (Some (mkUser "u1" "old@b.com" None false)) alice_body _ _ _)
              alice_data _ _)); reflexivity.
  - refine (proj2 (proj2 (checkAuthStatus_token_accepted (J := stub_json)
              env_me_without_data (startup_state stale_store)
              (Some (mkUser "u1" "old@b.com" None false))
              {| success := false; data := None; message := None |} _ _ _) _));
      reflexivity.
Defined.

(** X3.  When the serialized user in the store cannot be parsed, the
    reconciliation sends no request, purges the Credential Bundle and ends
    with [user] and [error] null. *)
Theorem checkAuthStatus_unreadable_user {J : JSON} (E : Env) (s : State) e :
  truthy (store s !! TOKEN_KEY) && truthy (store s !! USER_KEY) = true ->
  JSON_parse (default "" (store s !! USER_KEY)) = inl e ->
  (forall method url bearer,
     EvRequest method url bearer ∉ events (checkAuthStatus E s)) /\
  store (final (checkAuthStatus E s)) = purged (store s) /\
  user (session (final (checkAuthStatus E s))) = None /\
  error (session (final (checkAuthStatus E s))) = None.
Proof.
  intros Hboth Hparse.
  change (wp (checkAuthStatus E) s (fun _ s' t =>
    (forall method url bearer, EvRequest method url bearer ∉ t) /\
    store s' = purged (store s) /\ user (session s') = None /\
    error (session s') = None)).
  unfold checkAuthStatus, checkAuthStatus_try. wp_run.
  repeat split. intros method url bearer Hin. unfold purge_events in Hin.
  elem_cases Hin.
Qed.

Lemma checkAuthStatus_unreadable_user_witness :
  store (final (checkAuthStatus (J := stub_json) env_ok (startup_state corrupt_store))) = ∅ /\
  user (session (final
    (checkAuthStatus (J := stub_json) env_ok (startup_state corrupt_store)))) = None.
Proof.
  destruct (checkAuthStatus_unreadable_user (J := stub_json) env_ok
              (startup_state corrupt_store) (new_Error "Unexpected token in JSON")
              eq_refl eq_refl) as (_ & Hstore & Huser & _).
  split; [|exact Huser].
  rewrite Hstore. vm_compute. reflexivity.
Defined.

(* ===================================================================== *)
(** ** Storing the Credential Bundle *)
(* ===================================================================== *)

Lemma token_nonempty (t : string) : negb (truthy (Some t)) = false <-> t <> "".
Proof.
  unfold truthy. rewrite negb_false_iff, negb_true_iff. apply String.eqb_neq.
Qed.

Lemma bearer_of_stored {J : JSON} (d : AuthData) (m : gmap string string) :
  data_token d <> "" -> bearer_of (stored d m) = Some (data_token d).
Proof.
  intros Hne. unfold bearer_of, stored.
  change "auth_token" with TOKEN_KEY.
  assert (Hlook : <[USER_KEY:=JSON_stringify (data_user d)]>
            (<[REFRESH_TOKEN_KEY:=data_refreshToken d]> (<[TOKEN_KEY:=data_token d]> m))
            !! TOKEN_KEY = Some (data_token d)).
  { unfold USER_KEY, REFRESH_TOKEN_KEY, TOKEN_KEY. by simplify_map_eq. }
  rewrite Hlook.
  apply token_nonempty in Hne. apply negb_false_iff in Hne. by rewrite Hne.
Qed.

(** X4.  [storeAuthData] does not roll back.  With data that carry a token:
    if the first write fails nothing has changed; if the second fails the
    new access token is already in the store; if the third fails the new
    access and refresh tokens are; in the three cases it throws
    "Failed to store authentication data" and leaves the session as it was.
    Only when the three writes succeed are [user] set and [error] reset. *)
Theorem storeAuthData_no_rollback {J : JSON} (E : Env) (body : AuthResponse)
    (d : AuthData) (s : State) :
  data body = Some d -> data_token d <> "" ->
  (is_Some (set_fault E TOKEN_KEY (data_token d)) ->
     outcome (storeAuthData E body s)
       = Thrown (new_Error "Failed to store authentication data") /\
     final (storeAuthData E body s) = s) /\
  (set_fault E TOKEN_KEY (data_token d) = None ->
   is_Some (set_fault E REFRESH_TOKEN_KEY (data_refreshToken d)) ->
     outcome (storeAuthData E body s)
       = Thrown (new_Error "Failed to store authentication data") /\
     session (final (storeAuthData E body s)) = session s /\
     store (final (storeAuthData E body s)) = <[TOKEN_KEY := data_token d]> (store s)) /\
  (set_fault E TOKEN_KEY (data_token d) = None ->
   set_fault E REFRESH_TOKEN_KEY (data_refreshToken d) = None ->
   is_Some (set_fault E USER_KEY (JSON_stringify (data_user d))) ->
     outcome (storeAuthData E body s)
       = Thrown (new_Error "Failed to store authentication data") /\
     session (final (storeAuthData E body s)) = session s /\
     store (final (storeAuthData E body s))
       = <[REFRESH_TOKEN_KEY := data_refreshToken d]>
           (<[TOKEN_KEY := data_token d]> (store s))) /\
  (set_fault E TOKEN_KEY (data_token d) = None ->
   set_fault E REFRESH_TOKEN_KEY (data_refreshToken d) = None ->
   set_fault E USER_KEY (JSON_stringify (data_user d)) = None ->
     outcome (storeAuthData E body s) = Returned tt /\
     store (final (storeAuthData E body s)) = stored d (store s) /\
     user (session (final (storeAuthData E body s))) = Some (data_user d) /\
     error (session (final (storeAuthData E body s))) = None /\
     isLoading (session (final (storeAuthData E body s))) = isLoading (session s)).
Proof.
  intros Hdata Htoken.
  assert (Hfull : negb (truthy (Some (data_token d))) = false)
    by (apply token_nonempty, Htoken).
  repeat apply conj.
  - intros [e He].
    change (wp (storeAuthData E body) s (fun o s' _ =>
      o = Thrown (new_Error "Failed to store authentication data") /\ s' = s)).
    wp_run. split; reflexivity.
  - intros Hok [e He].
    change (wp (storeAuthData E body) s (fun o s' _ =>
      o = Thrown (new_Error "Failed to store authentication data") /\
      session s' = session s /\ store s' = <[TOKEN_KEY := data_token d]> (store s))).
    wp_run. repeat split.
  - intros Hok1 Hok2 [e He].
    change (wp (storeAuthData E body) s (fun o s' _ =>
      o = Thrown (new_Error "Failed to store authentication data") /\
      session s' = session s /\
      store s' = <[REFRESH_TOKEN_KEY := data_refreshToken d]>
                   (<[TOKEN_KEY := data_token d]> (store s)))).
    wp_run. repeat split.
  - intros Hok1 Hok2 Hok3.
    change (wp (storeAuthData E body) s (fun o s' _ =>
      o = Returned tt /\ store s' = stored d (store s) /\
      user (session s') = Some (data_user d) /\ error (session s') = None /\
      isLoading (session s') = isLoading (session s))).
    wp_run. repeat split.
Qed.

Lemma storeAuthData_no_rollback_witness :
  outcome (storeAuthData (J := stub_json) env_refresh_write_fails alice_body alice_state)
    = Thrown (new_Error "Failed to store authentication data") /\
  store (final (storeAuthData (J := stub_json) env_refresh_write_fails alice_body
                  alice_state)) !! TOKEN_KEY = Some "t1" /\
  store (final (storeAuthData (J := stub_json) env_refresh_write_fails alice_body
                  alice_state)) !! REFRESH_TOKEN_KEY = Some "r0" /\
  user (session (final (storeAuthData (J := stub_json) env_ok alice_body
                          (startup_state ∅)))) = Some alice.
Proof.
  assert (Hne : data_token alice_data <> "") by discriminate.
  destruct (storeAuthData_no_rollback (J := stub_json) env_refresh_write_fails
              alice_body alice_data alice_state eq_refl Hne) as (_ & Hsecond & _ & _).
  destruct (Hsecond eq_refl (ex_intro _ (new_Error "Keychain unavailable") eq_refl))
    as (Hthrown & _ & Hstore).
  destruct (storeAuthData_no_rollback (J := stub_json) env_ok
              alice_body alice_data (startup_state ∅) eq_refl Hne) as (_ & _ & _ & Hall).
  destruct (Hall eq_refl eq_refl eq_refl) as (_ & _ & Huser & _).
  split; [exact Hthrown|].
  split; [rewrite Hstore; vm_compute; reflexivity|].
  split; [rewrite Hstore; vm_compute; reflexivity|exact Huser].
Defined.

(** X5.  When [login] returns, the backend has answered with success and
    with data carrying a non-empty token; the three keys of the store hold
    the values of the answer, [user] is the user of the answer, [error] is
    null and [isLoading] is false; and the next request will carry exactly
    that token. *)
Theorem login_success {J : JSON} (E : Env) (credentials : LoginRequest) (s : State) :
  outcome (login E credentials s) = Returned tt ->
  exists body d,
    srv_login E credentials (bearer_of (store s)) = inr body /\
    success body = true /\ data body = Some d /\ data_token d <> "" /\
    store (final (login E credentials s)) = stored d (store s) /\
    user (session (final (login E credentials s))) = Some (data_user d) /\
    error (session (final (login E credentials s))) = None /\
    isLoading (session (final (login E credentials s))) = false /\
    bearer_of (store (final (login E credentials s))) = Some (data_token d).
Proof.
  change (wp (login E credentials) s (fun o s' _ =>
    o = Returned tt ->
    exists body d,
      srv_login E credentials (bearer_of (store s)) = inr body /\
      success body = true /\ data body = Some d /\ data_token d <> "" /\
      store s' = stored d (store s) /\ user (session s') = Some (data_user d) /\
      error (session s') = None /\ isLoading (session s') = false /\
      bearer_of (store s') = Some (data_token d))).
  unfold login, login_try. wp_run; intros Hret; try discriminate Hret.
  match goal with
  | Hbody : srv_login _ _ _ = inr ?b, Hd : data ?b = Some ?d,
    Hs : success ?b && _ = true, Ht : negb (truthy (Some (data_token ?d))) = false |- _ =>
      exists b, d; apply token_nonempty in Ht;
      repeat split; try assumption; try reflexivity;
      [ apply (proj1 (andb_true_iff _ _) Hs) | by apply bearer_of_stored ]
  end.
Qed.

Lemma login_success_witness :
  store (final (login (J := stub_json) env_ok alice_credentials (startup_state ∅)))
    = stored (J := stub_json) alice_data ∅ /\
  bearer_of (store (final (login (J := stub_json) env_ok alice_credentials
                             (startup_state ∅)))) = Some "t1".
Proof.
  destruct (login_success (J := stub_json) env_ok alice_credentials (startup_state ∅)
              eq_refl) as (body & d & Hbody & _ & Hdata & _ & Hstore & _ & _ & _ & Hbearer).
  injection Hbody as <-. injection Hdata as <-.
  exact (conj Hstore Hbearer).
Defined.

(* ===================================================================== *)
(** ** Register, reset of the password, refresh *)
(* ===================================================================== *)

(** X6.  [register] ends like [login].  When it returns, the answer of the
    backend is in the store and in [user], and [error] is null; when it
    throws, [user] is what it was and [error] holds the message of the error
    thrown; either way [isLoading] is false. *)
Theorem register_outcomes {J : JSON} (E : Env) (userData : RegisterRequest) (s : State) :
  (outcome (register E userData s) = Returned tt ->
   exists body d,
     srv_register E userData (bearer_of (store s)) = inr body /\
     success body = true /\ data body = Some d /\
     store (final (register E userData s)) = stored d (store s) /\
     user (session (final (register E userData s))) = Some (data_user d) /\
     error (session (final (register E userData s))) = None) /\
  (forall e, outcome (register E userData s) = Thrown e ->
     user (session (final (register E userData s))) = user (session s) /\
     error (session (final (register E userData s))) = Some (err_message e)) /\
  isLoading (session (final (register E userData s))) = false.
Proof.
  repeat apply conj.
  - change (wp (register E userData) s (fun o s' _ =>
      o = Returned tt ->
      exists body d,
        srv_register E userData (bearer_of (store s)) = inr body /\
        success body = true /\ data body = Some d /\
        store s' = stored d (store s) /\ user (session s') = Some (data_user d) /\
        error (session s') = None)).
    unfold register, register_try. wp_run; intros Hret; try discriminate Hret.
    match goal with
    | Hbody : srv_register _ _ _ = inr ?b, Hd : data ?b = Some ?d,
      Hs : success ?b && _ = true |- _ =>
        exists b, d; repeat split; try assumption; try reflexivity;
        apply (proj1 (andb_true_iff _ _) Hs)
    end.
  - change (wp (register E userData) s (fun o s' _ =>
      forall e, o = Thrown e ->
        user (session s') = user (session s) /\
        error (session s') = Some (err_message e))).
    unfold register, register_try. wp_run; intros e' [= <-]; auto.
  - change (wp (register E userData) s (fun _ s' _ => isLoading (session s') = false)).
    unfold register, register_try. wp_run; reflexivity.
Qed.

Lemma register_outcomes_witness :
  user (session (final (register (J := stub_json) env_ok
                          (mkRegisterRequest "a@b.com" "Secret12" None) (startup_state ∅))))
    = Some alice /\
  error (session (final (register (J := stub_json) env_reject
                           (mkRegisterRequest "a@b.com" "Secret12" None) alice_state)))
    = Some generic_message.
Proof.
  destruct (register_outcomes (J := stub_json) env_ok
              (mkRegisterRequest "a@b.com" "Secret12" None) (startup_state ∅))
    as (Hret & _ & _).
  destruct (Hret eq_refl) as (body & d & Hbody & _ & Hdata & _ & Huser & _).
  injection Hbody as <-. injection Hdata as <-.
  destruct (register_outcomes (J := stub_json) env_reject
              (mkRegisterRequest "a@b.com" "Secret12" None) alice_state)
    as (_ & Hthrown & _).
  destruct (Hthrown (new_Error generic_message) eq_refl) as (_ & Herror).
  exact (conj Huser Herror).
Defined.

(** X7.  [resetPassword] never changes [user] or the store.  It returns
    exactly when the backend answers with success, and then [error] is null;
    when it throws, [error] holds the message of the error thrown; either
    way [isLoading] is false. *)
Theorem resetPassword_frame (E : Env) (email : string) (s : State) :
  user (session (final (resetPassword E email s))) = user (session s) /\
  store (final (resetPassword E email s)) = store s /\
  isLoading (session (final (resetPassword E email s))) = false /\
  (outcome (resetPassword E email s) = Returned tt <->
   exists body, srv_resetPassword E {| reset_email := email |} (bearer_of (store s))
                  = inr body /\ api_success body = true) /\
  (outcome (resetPassword E email s) = Returned tt ->
   error (session (final (resetPassword E email s))) = None) /\
  (forall e, outcome (resetPassword E email s) = Thrown e ->
     error (session (final (resetPassword E email s))) = Some (err_message e)).
Proof.
  change (wp (resetPassword E email) s (fun o s' _ =>
    user (session s') = user (session s) /\ store s' = store s /\
    isLoading (session s') = false /\
    (o = Returned tt <->
     exists body, srv_resetPassword E {| reset_email := email |} (bearer_of (store s))
                    = inr body /\ api_success body = true) /\
    (o = Returned tt -> error (session s') = None) /\
    (forall e, o = Thrown e -> error (session s') = Some (err_message e)))).
  unfold resetPassword, resetPassword_try.
  wp_run; repeat split; try reflexivity; try discriminate.
  all: try (intros (body & Hbody & Hok); simplify_eq;
            match goal with Hn : negb _ = _ |- _ => rewrite Hok in Hn; discriminate Hn end).
  all: try (intros e' [= <-]; reflexivity).
  all: try (intros _; eexists; split; [reflexivity|];
            match goal with Hn : negb _ = false |- _ => by apply negb_false_iff in Hn end).
Qed.

Lemma resetPassword_frame_witness :
  outcome (resetPassword env_ok "a@b.com" alice_state) = Returned tt /\
  error (session (final (resetPassword env_ok "a@b.com" alice_state)))
    = None /\
  error (session (final (resetPassword env_reject "a@b.com" alice_state)))
    = Some generic_message.
Proof.
  destruct (resetPassword_frame env_ok "a@b.com" alice_state)
    as (_ & _ & _ & Hiff & Hnone & _).
  assert (Hret : outcome (resetPassword env_ok "a@b.com" alice_state)
                 = Returned tt).
  { apply Hiff. eexists. split; reflexivity. }
  destruct (resetPassword_frame env_reject "a@b.com" alice_state)
    as (_ & _ & _ & _ & _ & Hthrown).
  exact (conj Hret (conj (Hnone Hret) (Hthrown (new_Error generic_message) eq_refl))).
Defined.

(** X8.  When [refreshToken] returns, a non-empty refresh token was stored,
    the backend has answered the refresh of that token with success and
    data, the store holds the new bundle, [user] is the user of the answer
    and [error] is null; [isLoading] is what it was. *)
Theorem refreshToken_success {J : JSON} (E : Env) (s : State) :
  outcome (refreshToken E s) = Returned tt ->
  exists old body d,
    store s !! REFRESH_TOKEN_KEY = Some old /\ old <> "" /\
    srv_refresh E old (bearer_of (store s)) = inr body /\
    success body = true /\ data body = Some d /\
    store (final (refreshToken E s)) = stored d (store s) /\
    user (session (final (refreshToken E s))) = Some (data_user d) /\
    error (session (final (refreshToken E s))) = None /\
    isLoading (session (final (refreshToken E s))) = isLoading (session s).
Proof.
  change (wp (refreshToken E) s (fun o s' _ =>
    o = Returned tt ->
    exists old body d,
      store s !! REFRESH_TOKEN_KEY = Some old /\ old <> "" /\
      srv_refresh E old (bearer_of (store s)) = inr body /\
      success body = true /\ data body = Some d /\
      store s' = stored d (store s) /\ user (session s') = Some (data_user d) /\
      error (session s') = None /\ isLoading (session s') = isLoading (session s))).
  unfold refreshToken, refreshToken_try. wp_run; intros Hret; try discriminate Hret.
  match goal with
  | Hold : negb (truthy (store s !! REFRESH_TOKEN_KEY)) = false |- _ =>
      destruct (store s !! REFRESH_TOKEN_KEY) as [old|] eqn:Hstored;
      [apply token_nonempty in Hold|discriminate Hold]
  end.
  match goal with
  | Hbody : srv_refresh _ _ _ = inr ?b, Hd : data ?b = Some ?d,
    Hs : success ?b && _ = true |- _ =>
      exists old, b, d; repeat split; try assumption; try reflexivity;
      apply (proj1 (andb_true_iff _ _) Hs)
  end.
Qed.

Lemma refreshToken_success_witness :
  store (final (refreshToken (J := stub_json) env_ok alice_state))
    = stored (J := stub_json) alice_data alice_store.
Proof.
  destruct (refreshToken_success (J := stub_json) env_ok alice_state eq_refl)
    as (old & body & d & _ & _ & Hbody & _ & Hdata & Hstore & _).
  injection Hbody as <-. injection Hdata as <-. exact Hstore.
Defined.

(* ===================================================================== *)
(** ** Requests *)
(* ===================================================================== *)

Lemma bearer_of_nonempty (m : gmap string string) : bearer_of m <> Some "".
Proof.
  unfold bearer_of. destruct (m !! "auth_token") as [t|] eqn:Hlook; cbn; [|discriminate].
  destruct (String.eqb t "") eqn:Hempty; cbn; [discriminate|].
  intros [= ->]. discriminate Hempty.
Qed.

Lemma bearer_of_purged (m : gmap string string) : bearer_of (purged m) = None.
Proof.
  unfold bearer_of. change "auth_token" with TOKEN_KEY.
  by rewrite lookup_purged_token.
Qed.

Ltac unfold_ops :=
  unfold run_op;
  unfold checkAuthStatus, checkAuthStatus_try, login, login_try, register,
    register_try, logout, logout_try, resetPassword, resetPassword_try,
    refreshToken, refreshToken_try, clearError.

(** X9.  No operation ever sends a request with an empty bearer token: a
    token is attached only when the store holds a non-empty one. *)
Theorem requests_carry_no_empty_token {J : JSON} (E : Env) (op : Op) (s : State)
    (method url : string) :
  EvRequest method url (Some "") ∉ events (run_op E op s).
Proof.
  change (wp (run_op E op) s (fun _ _ t => EvRequest method url (Some "") ∉ t)).
  destruct op; unfold_ops; wp_run; split_rejections; intros Hin;
    unfold purge_events in Hin; cbn [app] in Hin; elem_cases Hin;
    injection Hin as _ _ Hbearer; symmetry in Hbearer;
    exact (bearer_of_nonempty _ Hbearer).
Qed.

(** X10.  An operation sends at most one request, and only to its own
    endpoint; [clearError] sends none. *)
Theorem operations_use_their_endpoint {J : JSON} (E : Env) (op : Op) (s : State) :
  (length (List.filter is_request (events (run_op E op s))) <= 1)%nat /\
  (forall method url bearer,
     EvRequest method url bearer ∈ events (run_op E op s) ->
     endpoint_of op = Some (method, url)).
Proof.
  split.
  - change (wp (run_op E op) s (fun _ _ t =>
      (length (List.filter is_request t) <= 1)%nat)).
    destruct op; unfold_ops; wp_run; split_rejections;
      unfold purge_events; cbn [app List.filter is_request length]; lia.
  - intros method url bearer.
    change (wp (run_op E op) s (fun _ _ t =>
      EvRequest method url bearer ∈ t -> endpoint_of op = Some (method, url))).
    destruct op; unfold_ops; wp_run; split_rejections; intros Hin;
      unfold purge_events in Hin; cbn [app] in Hin; elem_cases Hin;
      injection Hin as -> -> _; reflexivity.
Qed.

Lemma operations_use_their_endpoint_witness :
  endpoint_of OpLogout = Some ("POST", "/auth/logout").
Proof.
  refine (proj2 (operations_use_their_endpoint (J := stub_json) env_ok OpLogout alice_state)
            "POST" "/auth/logout" (Some "t0") _).
  vm_compute. repeat constructor.
Defined.

Lemma wp_AuthService_verifyEmail srv token s Q :
  match srv token (bearer_of (store s)) with
  | inr body => Q (Returned body) s (request_events "POST" "/auth/verify-email" s)
  | inl error =>
      Q (Thrown (new_Error generic_message)) s
        (request_events "POST" "/auth/verify-email" s ++ rejection_events error)
  end ->
  wp (AuthService.verifyEmail srv token) s Q.
Proof. exact (wp_client_call _ _ _ (fun body => body) s Q). Qed.

(** X11.  The methods of the client never change the session or the store,
    whatever the backend answers: a rejection with status 401 warns on the
    console and nothing else. *)
Theorem client_calls_leave_state (E : Env) (s : State) :
  (forall credentials, final (AuthService.login E credentials s) = s) /\
  (forall userData, final (AuthService.register E userData s) = s) /\
  (forall emailData, final (AuthService.resetPassword E emailData s) = s) /\
  (forall token, final (AuthService.refreshToken E token s) = s) /\
  final (AuthService.logout E s) = s /\
  final (AuthService.getCurrentUser E s) = s /\
  (forall srv token, final (AuthService.verifyEmail srv token s) = s).
Proof.
  repeat apply conj; intros;
    match goal with
    | |- final (?m s) = s => change (wp m s (fun _ s' _ => s' = s))
    end;
    first [apply wp_AuthService_verifyEmail | idtac]; wp_run;
    repeat case_match; reflexivity.
Qed.

(** X12.  [verifyEmail] sends one POST to /auth/verify-email, with the
    stored token when there is one; it returns the body of the answer, and
    on a rejection throws the plain error with the generic message. *)
Theorem verifyEmail_run (srv : string -> option string -> JsError + ApiResponse)
    (token : string) (s : State) :
  List.filter is_request (events (AuthService.verifyEmail srv token s))
    = [EvRequest "POST" "/auth/verify-email" (bearer_of (store s))] /\
  (forall body, srv token (bearer_of (store s)) = inr body ->
     outcome (AuthService.verifyEmail srv token s) = Returned body) /\
  (forall error, srv token (bearer_of (store s)) = inl error ->
     outcome (AuthService.verifyEmail srv token s) = Thrown (new_Error generic_message)).
Proof.
  repeat apply conj.
  - change (wp (AuthService.verifyEmail srv token) s (fun _ _ t =>
      List.filter is_request t
        = [EvRequest "POST" "/auth/verify-email" (bearer_of (store s))])).
    apply wp_AuthService_verifyEmail.
    destruct (srv token (bearer_of (store s))); split_rejections; reflexivity.
  - intros body Hbody.
    change (wp (AuthService.verifyEmail srv token) s (fun o _ _ => o = Returned body)).
    apply wp_AuthService_verifyEmail. rewrite Hbody. reflexivity.
  - intros error Herror.
    change (wp (AuthService.verifyEmail srv token) s (fun o _ _ =>
      o = Thrown (new_Error generic_message))).
    apply wp_AuthService_verifyEmail. rewrite Herror. reflexivity.
Qed.

Lemma verifyEmail_run_witness :
  outcome (AuthService.verifyEmail (fun _ _ => inl invalid_credentials) "code"
             (startup_state alice_store))
  = Thrown (new_Error generic_message).
Proof.
  exact (proj2 (proj2 (verifyEmail_run (fun _ _ => inl invalid_credentials) "code"
                         (startup_state alice_store)))
           invalid_credentials eq_refl).
Defined.

(** X13.  [login], [register], [resetPassword] and [clearError] never delete
    from the store: a key that was stored before is stored after, whether
    the operation returns or throws. *)
Theorem store_only_grows {J : JSON} (E : Env) (s : State) (key : string) :
  is_Some (store s !! key) ->
  (forall credentials, is_Some (store (final (login E credentials s)) !! key)) /\
  (forall userData, is_Some (store (final (register E userData s)) !! key)) /\
  (forall email, is_Some (store (final (resetPassword E email s)) !! key)) /\
  is_Some (store (final (clearError s)) !! key).
Proof.
  intros Hkey. repeat apply conj; intros;
    match goal with
    | |- is_Some (store (final (?m s)) !! key) =>
        change (wp m s (fun _ s' _ => is_Some (store s' !! key)))
    end;
    unfold_ops; wp_run;
    rewrite ?lookup_insert_is_Some'; auto.
Qed.

Lemma store_only_grows_witness :
  is_Some (store (final (login (J := stub_json) env_refresh_write_fails alice_credentials
                           alice_state)) !! USER_KEY).
Proof.
  refine (proj1 (store_only_grows (J := stub_json) env_refresh_write_fails alice_state
                   USER_KEY _) alice_credentials).
  exists (stub_stringify alice). reflexivity.
Defined.

(** X14.  The logout request is sent with the token of the session that is
    ending, before the purge; once [logout] or a failed [refreshToken] is
    over, the next request carries no token. *)
Theorem logout_sends_token_then_forgets_it {J : JSON} (E : Env) (s : State) :
  (exists after,
     events (logout E s)
       = [EvSetIsLoading true; EvGetItem "auth_token";
          EvRequest "POST" "/auth/logout" (bearer_of (store s))] ++ after /\
     contains_purge after) /\
  bearer_of (store (final (logout E s))) = None /\
  (forall e, outcome (refreshToken E s) = Thrown e ->
     bearer_of (store (final (refreshToken E s))) = None).
Proof.
  repeat apply conj.
  - change (wp (logout E) s (fun _ _ t =>
      exists after,
        t = [EvSetIsLoading true; EvGetItem "auth_token";
             EvRequest "POST" "/auth/logout" (bearer_of (store s))] ++ after /\
        contains_purge after)).
    unfold logout, logout_try.
    wp_run; split_rejections; eexists; (split; [reflexivity|find_purge]).
  - change (wp (logout E) s (fun _ s' _ => bearer_of (store s') = None)).
    unfold logout, logout_try. wp_run; apply bearer_of_purged.
  - change (wp (refreshToken E) s (fun o s' _ =>
      forall e, o = Thrown e -> bearer_of (store s') = None)).
    unfold refreshToken, refreshToken_try.
    wp_run; intros e' [= <-]; apply bearer_of_purged.
Qed.

Lemma logout_sends_token_then_forgets_it_witness :
  bearer_of (store (final (refreshToken (J := stub_json) env_reject alice_state))) = None.
Proof.
  exact (proj2 (proj2 (logout_sends_token_then_forgets_it (J := stub_json) env_reject
                         alice_state))
           (new_Error generic_message) eq_refl).
Defined.

(* ===================================================================== *)
(** ** The password meter and the password rules of the forms *)
(* ===================================================================== *)

Import RegisterScreen.

Lemma getPasswordStrength_nonempty (password : list N) :
  password <> [] ->
  getPasswordStrength password =
    let n := strength_count password in
    if (n <=? 2)%nat then {| strength := n; text := "Weak"; color := "#ff4444" |}
    else if (n <=? 3)%nat then {| strength := n; text := "Fair"; color := "#ffaa00" |}
    else if (n <=? 4)%nat then {| strength := n; text := "Good"; color := "#00aaff" |}
    else {| strength := n; text := "Strong"; color := "#00ff00" |}.
Proof. destruct password; [congruence|reflexivity]. Qed.

(** Every code unit is in one of the four classes. *)
Lemma some_class_matches (password : list N) :
  password <> [] ->
  test is_upper password || test is_lower password || test is_digit password
  || test is_special password = true.
Proof.
  destruct password as [|c rest]; [congruence|intros _].
  unfold test, is_special. cbn [existsb].
  destruct (is_upper c), (is_lower c), (is_digit c); cbn; try reflexivity.
  all: repeat (destruct (existsb _ rest); cbn; try reflexivity).
Qed.

Ltac password_cases password :=
  unfold strength_count, RegisterScreen.password_issues, LoginScreen.password_issues;
  destruct (Nat.leb_spec 8 (length password)), (Nat.ltb_spec (length password) 8),
    (Nat.ltb_spec (length password) 6); try lia;
  destruct (test is_upper password), (test is_lower password), (test is_digit password),
    (test is_special password);
  cbn.

(** X15.  The meter gives 0 and no label exactly to the empty password; any
    other password scores between 1 and 5, and is labelled Weak up to 2,
    Fair at 3, Good at 4 and Strong at 5. *)
Theorem password_strength_scale (password : list N) :
  (text (getPasswordStrength password) = "" <-> password = []) /\
  (password = [] -> strength (getPasswordStrength password) = 0%nat) /\
  (password <> [] ->
     (1 <= strength (getPasswordStrength password) <= 5)%nat /\
     (text (getPasswordStrength password) = "Weak"
        <-> (strength (getPasswordStrength password) <= 2)%nat) /\
     (text (getPasswordStrength password) = "Fair"
        <-> strength (getPasswordStrength password) = 3%nat) /\
     (text (getPasswordStrength password) = "Good"
        <-> strength (getPasswordStrength password) = 4%nat) /\
     (text (getPasswordStrength password) = "Strong"
        <-> strength (getPasswordStrength password) = 5%nat)).
Proof.
  split; [|split].
  - destruct password as [|c rest]; [done|].
    split; [|discriminate]. intros Htext. exfalso. revert Htext.
    rewrite getPasswordStrength_nonempty by discriminate.
    cbn zeta. repeat case_match; discriminate.
  - intros ->. reflexivity.
  - intros Hne. pose proof (some_class_matches password Hne) as Hclass.
    rewrite getPasswordStrength_nonempty by exact Hne. revert Hclass.
    password_cases password; intros Hclass; try discriminate Hclass;
      repeat split; intros; first [lia | discriminate | reflexivity].
Qed.

Lemma password_strength_scale_witness :
  text (getPasswordStrength (code_units "Passw0rd!")) = "Strong" /\
  strength (getPasswordStrength (code_units "abc")) = 1%nat.
Proof.
  split.
  - destruct (password_strength_scale (code_units "Passw0rd!")) as (_ & _ & Hscale).
    assert (Hne : code_units "Passw0rd!" <> []) by discriminate.
    destruct (Hscale Hne) as (_ & _ & _ & _ & Hstrong).
    apply Hstrong. vm_compute. reflexivity.
  - vm_compute. reflexivity.
Defined.

(** X16.  The meter against the rules of the register form.  A password the
    form accepts is rated Good or Strong, never Weak or Fair; the rating is
    Strong exactly when the form accepts the password and the password has a
    character that is neither a letter nor a digit. *)
Theorem meter_agrees_with_register_rules (password : list N) :
  (RegisterScreen.password_issues password = [] ->
     text (getPasswordStrength password) = "Good" \/
     text (getPasswordStrength password) = "Strong") /\
  (text (getPasswordStrength password) = "Strong" <->
     RegisterScreen.password_issues password = [] /\ test is_special password = true).
Proof.
  destruct (decide (password = [])) as [->|Hne].
  { split; [discriminate|]. split; [discriminate|intros [Hno _]; discriminate Hno]. }
  rewrite getPasswordStrength_nonempty by exact Hne.
  password_cases password; repeat split; intros;
    first [ discriminate | by left | by right | reflexivity
          | match goal with H : _ /\ _ |- _ => destruct H; discriminate end ].
Qed.

Lemma meter_agrees_with_register_rules_witness :
  text (getPasswordStrength (code_units "Passw0rd")) = "Good" \/
  text (getPasswordStrength (code_units "Passw0rd")) = "Strong".
Proof.
  apply (proj1 (meter_agrees_with_register_rules (code_units "Passw0rd"))).
  vm_compute. reflexivity.
Defined.

(** X17.  The rules of the two forms.  The register form accepts a password
    exactly when it has at least 8 code units, an uppercase letter, a
    lowercase letter and a digit; when it rejects one, the first message it
    gives is about the length whenever the password is too short; and every
    password the register form accepts, the login form accepts. *)
Theorem register_rules (password : list N) :
  (RegisterScreen.password_issues password = [] <->
     (8 <= length password)%nat /\ test is_upper password = true /\
     test is_lower password = true /\ test is_digit password = true) /\
  ((length password < 8)%nat ->
     head (RegisterScreen.password_issues password)
       = Some "Password must be at least 8 characters") /\
  (RegisterScreen.password_issues password = [] ->
     LoginScreen.password_issues password = []).
Proof.
  password_cases password; repeat split; intros;
    first [ discriminate | lia | reflexivity
          | match goal with H : _ /\ _ /\ _ /\ _ |- _ =>
              destruct H as (? & ? & ? & ?); first [discriminate | lia] end ].
Qed.

Lemma register_rules_witness :
  LoginScreen.password_issues (code_units "Passw0rd") = [] /\
  head (RegisterScreen.password_issues (code_units "abc"))
    = Some "Password must be at least 8 characters".
Proof.
  destruct (register_rules (code_units "Passw0rd")) as (_ & _ & Hlogin).
  destruct (register_rules (code_units "abc")) as (_ & Hshort & _).
  split; [apply Hlogin; vm_compute; reflexivity|apply Hshort; vm_compute; lia].
Defined.

(* ===================================================================== *)
(** ** The routing guard *)
(* ===================================================================== *)

(** X18.  Where the guard sends the user once an operation is over.  After
    [logout]: to the login screen, always.  After the startup
    reconciliation: it always decides, and for the tabs exactly when [user]
    is not null.  After a [login] or a [register] that returned: to the
    tabs.  After a [login] that threw while nobody was signed in: to the
    login screen.  Before the reconciliation it sends nowhere. *)
Theorem guard_after_operations {J : JSON} (E : Env) (s : State) :
  AuthGuard (session (final (logout E s))) = Some "/(auth)/login" /\
  AuthGuard (session (final (checkAuthStatus E s)))
    = Some (if isAuthenticated (session (final (checkAuthStatus E s)))
            then "/(tabs)" else "/(auth)/login") /\
  (forall credentials,
     outcome (login E credentials s) = Returned tt ->
     AuthGuard (session (final (login E credentials s))) = Some "/(tabs)") /\
  (forall userData,
     outcome (register E userData s) = Returned tt ->
     AuthGuard (session (final (register E userData s))) = Some "/(tabs)") /\
  (forall credentials e,
     user (session s) = None -> outcome (login E credentials s) = Thrown e ->
     AuthGuard (session (final (login E credentials s))) = Some "/(auth)/login") /\
  AuthGuard initial_session = None.
Proof.
  repeat apply conj.
  - change (wp (logout E) s (fun _ s' _ => AuthGuard (session s') = Some "/(auth)/login")).
    unfold logout, logout_try. wp_run; reflexivity.
  - change (wp (checkAuthStatus E) s (fun _ s' _ =>
      AuthGuard (session s')
        = Some (if isAuthenticated (session s') then "/(tabs)" else "/(auth)/login"))).
    unfold checkAuthStatus, checkAuthStatus_try.
    wp_run; unfold AuthGuard, useAuthStatus, isAuthenticated;
      cbn [status_isLoading status_isAuthenticated isLoading user negb];
      repeat case_match; reflexivity.
  - intros credentials.
    change (wp (login E credentials) s (fun o s' _ =>
      o = Returned tt -> AuthGuard (session s') = Some "/(tabs)")).
    unfold login, login_try. wp_run; intros Hret; try discriminate Hret; reflexivity.
  - intros userData.
    change (wp (register E userData) s (fun o s' _ =>
      o = Returned tt -> AuthGuard (session s') = Some "/(tabs)")).
    unfold register, register_try. wp_run; intros Hret; try discriminate Hret; reflexivity.
  - intros credentials e Hnobody.
    change (wp (login E credentials) s (fun o s' _ =>
      o = Thrown e -> AuthGuard (session s') = Some "/(auth)/login")).
    unfold login, login_try.
    wp_run; intros Hthrown; try discriminate Hthrown;
      unfold AuthGuard, useAuthStatus, isAuthenticated; cbn; rewrite Hnobody; reflexivity.
  - reflexivity.
Qed.

Lemma guard_after_operations_witness :
  AuthGuard (session (final (login (J := stub_json) env_ok alice_credentials
                               (startup_state ∅)))) = Some "/(tabs)" /\
  AuthGuard (session (final (login (J := stub_json) env_reject alice_credentials
                               (startup_state ∅)))) = Some "/(auth)/login".
Proof.
  split.
  - exact (proj1 (proj2 (proj2 (guard_after_operations (J := stub_json) env_ok
                                  (startup_state ∅)))) alice_credentials eq_refl).
  - exact (proj1 (proj2 (proj2 (proj2 (proj2 (guard_after_operations (J := stub_json)
                                  env_reject (startup_state ∅))))))
             alice_credentials (new_Error generic_message) eq_refl eq_refl).
Defined.

(* ===================================================================== *)
(** ** The form handlers *)
(* ===================================================================== *)

Import LoginForm RegisterForm ForgotPasswordForm.

(** What the three operations behind the forms leave in [error] and
    [isLoading]. *)
Lemma login_settles {J : JSON} (E : Env) credentials (s : State) :
  isLoading (session (final (login E credentials s))) = false /\
  match outcome (login E credentials s) with
  | Returned _ => error (session (final (login E credentials s))) = None
  | Thrown e => error (session (final (login E credentials s))) = Some (err_message e)
  end.
Proof.
  change (wp (login E credentials) s (fun o s' _ =>
    isLoading (session s') = false /\
    match o with
    | Returned _ => error (session s') = None
    | Thrown e => error (session s') = Some (err_message e)
    end)).
  unfold login, login_try. wp_run; split; reflexivity.
Qed.

Lemma register_settles {J : JSON} (E : Env) userData (s : State) :
  isLoading (session (final (register E userData s))) = false /\
  match outcome (register E userData s) with
  | Returned _ => error (session (final (register E userData s))) = None
  | Thrown e => error (session (final (register E userData s))) = Some (err_message e)
  end.
Proof.
  change (wp (register E userData) s (fun o s' _ =>
    isLoading (session s') = false /\
    match o with
    | Returned _ => error (session s') = None
    | Thrown e => error (session s') = Some (err_message e)
    end)).
  unfold register, register_try. wp_run; split; reflexivity.
Qed.

Lemma resetPassword_settles (E : Env) email (s : State) :
  isLoading (session (final (resetPassword E email s))) = false /\
  match outcome (resetPassword E email s) with
  | Returned _ => error (session (final (resetPassword E email s))) = None
  | Thrown e => error (session (final (resetPassword E email s))) = Some (err_message e)
  end.
Proof.
  change (wp (resetPassword E email) s (fun o s' _ =>
    isLoading (session s') = false /\
    match o with
    | Returned _ => error (session s') = None
    | Thrown e => error (session s') = Some (err_message e)
    end)).
  unfold resetPassword, resetPassword_try. wp_run; split; reflexivity.
Qed.

(** The alerts among the events of a handler: none on success, one on
    failure. *)
Lemma alert_in_handler_events (before : list UiEvent) (l1 l2 : list Event)
    (tail : list UiEvent) title message :
  before = [UiSetIsSubmitting true] ->
  UiAlert title message
    ∈ (before ++ map UiController l1 ++ [UiHaptic "impactAsync" "Medium"]
       ++ map UiController l2) ++ tail <->
  UiAlert title message ∈ tail.
Proof.
  intros ->. rewrite !list_elem_of_In, !in_app_iff, !in_map_iff. cbn [In].
  split; [|tauto].
  intros [[[H|[]]|[(ev & H & _)|[[H|[]]|(ev & H & _)]]]|H]; try discriminate H; exact H.
Qed.

Ltac alert_cases :=
  split;
  [ intros Hin; repeat (destruct Hin as [Hin|Hin]; try discriminate Hin);
    first [ by destruct Hin | injection Hin as <-; reflexivity ]
  | first [ discriminate | intros [= <-]; right; left; reflexivity ] ].

(** X19.  What a form shows after a submission.  The handler shows an alert
    exactly when the operation left a message in [error], and the alert
    carries that message; and when the handler is over the inputs of the form
    are editable again. *)
Theorem form_alert_matches_error {J : JSON} (E : Env) (s : State) :
  (forall data message,
     UiAlert "Login Error" message ∈ ui_events (handleLogin E data s) <->
     error (session (app_after (handleLogin E data s))) = Some message) /\
  (forall data message,
     UiAlert "Registration Error" message ∈ ui_events (handleRegister E data s) <->
     error (session (app_after (handleRegister E data s))) = Some message) /\
  (forall email sent message,
     UiAlert "Reset Error" message ∈ ui_events (handleResetPassword E email s sent).1 <->
     error (session (app_after (handleResetPassword E email s sent).1)) = Some message) /\
  (forall data,
     editable (session (app_after (handleLogin E data s)))
              (isSubmitting_after (handleLogin E data s)) = true) /\
  (forall data,
     editable (session (app_after (handleRegister E data s)))
              (isSubmitting_after (handleRegister E data s)) = true) /\
  (forall email sent,
     editable (session (app_after (handleResetPassword E email s sent).1))
              (isSubmitting_after (handleResetPassword E email s sent).1) = true).
Proof.
  repeat apply conj.
  - intros data message. unfold handleLogin.
    destruct (login_settles E data (final (clearError s))) as [_ Herror].
    destruct (outcome (login E data (final (clearError s)))) as [[]|e];
      cbn [ui_events app_after]; rewrite alert_in_handler_events by reflexivity;
      rewrite Herror, !list_elem_of_In; cbn [In]; alert_cases.
  - intros data message. unfold handleRegister.
    match goal with
    | |- context [register E ?d ?s0] =>
        destruct (register_settles E d s0) as [_ Herror];
        destruct (outcome (register E d s0)) as [[]|e]
    end;
      cbn [ui_events app_after]; rewrite alert_in_handler_events by reflexivity;
      rewrite Herror, !list_elem_of_In; cbn [In]; alert_cases.
  - intros email sent message. unfold handleResetPassword.
    destruct (resetPassword_settles E email (final (clearError s))) as [_ Herror].
    destruct (outcome (resetPassword E email (final (clearError s)))) as [[]|e];
      cbn [ui_events app_after fst]; rewrite alert_in_handler_events by reflexivity;
      rewrite Herror, !list_elem_of_In; cbn [In]; alert_cases.
  - intros data. unfold handleLogin, editable.
    destruct (login_settles E data (final (clearError s))) as [Hloading _].
    destruct (outcome (login E data (final (clearError s))));
      cbn [app_after isSubmitting_after]; rewrite Hloading; reflexivity.
  - intros data. unfold handleRegister, editable.
    match goal with
    | |- context [register E ?d ?s0] =>
        destruct (register_settles E d s0) as [Hloading _];
        destruct (outcome (register E d s0))
    end;
      cbn [app_after isSubmitting_after]; rewrite Hloading; reflexivity.
  - intros email sent. unfold handleResetPassword, editable.
    destruct (resetPassword_settles E email (final (clearError s))) as [Hloading _].
    destruct (outcome (resetPassword E email (final (clearError s))));
      cbn [app_after isSubmitting_after fst]; rewrite Hloading; reflexivity.
Qed.

Lemma form_alert_matches_error_witness :
  UiAlert "Login Error" "An unexpected error occurred. Please try again."
    ∈ ui_events (handleLogin (J := stub_json) env_reject alice_credentials
                   (startup_state ∅)).
Proof.
  apply (proj1 (form_alert_matches_error (J := stub_json) env_reject (startup_state ∅))).
  vm_compute. reflexivity.
Defined.

Lemma resetPassword_returns_iff (E : Env) (email : string) (s : State) :
  outcome (resetPassword E email s) = Returned tt <->
  exists body,
    srv_resetPassword E {| reset_email := email |} (bearer_of (store s)) = inr body /\
    api_success body = true.
Proof.
  change (wp (resetPassword E email) s (fun o _ _ =>
    o = Returned tt <->
    exists body,
      srv_resetPassword E {| reset_email := email |} (bearer_of (store s)) = inr body /\
      api_success body = true)).
  unfold resetPassword, resetPassword_try.
  wp_run; (split; [try discriminate|]).
  all: try (intros (body & Hbody & Hok); simplify_eq;
            match goal with Hn : negb _ = _ |- _ => rewrite Hok in Hn; discriminate Hn end).
  - intros _. eexists. split; [reflexivity|].
    match goal with Hn : negb _ = false |- _ => by apply negb_false_iff in Hn end.
  - reflexivity.
Qed.

(** X20.  The forgot-password form switches to its "Email Sent" view only
    on success: after the handler, [emailSent] is true exactly when it was
    already true or the backend has answered the reset request with
    success. *)
Theorem email_sent_only_after_success (E : Env) (email : string) (s : State)
    (sent : bool) :
  (handleResetPassword E email s sent).2 = true <->
  sent = true \/
  exists body,
    srv_resetPassword E {| reset_email := email |} (bearer_of (store s)) = inr body /\
    api_success body = true.
Proof.
  unfold handleResetPassword.
  pose proof (resetPassword_returns_iff E email (final (clearError s))) as Hiff.
  change (store (final (clearError s))) with (store s) in Hiff.
  destruct (outcome (resetPassword E email (final (clearError s)))) as [[]|e];
    cbn [snd].
  - split; [intros _; right; by apply Hiff|reflexivity].
  - split; [by left|]. intros [Hsent|Hok]; [exact Hsent|].
    apply Hiff in Hok. discriminate Hok.
Qed.

Lemma email_sent_only_after_success_witness :
  (handleResetPassword env_ok "a@b.com" (startup_state ∅) false).2 = true /\
  (handleResetPassword env_reject "a@b.com" (startup_state ∅) false).2 = false.
Proof.
  split.
  - apply (email_sent_only_after_success env_ok "a@b.com" (startup_state ∅) false).
    right. eexists. split; reflexivity.
  - vm_compute. reflexivity.
Defined.

(** X21.  Whatever a rejected request carried (a status, a message of the
    server, a network or a timeout code), the operation throws the plain
    error with the generic message and records that message in [error]: the
    session never shows why a request was rejected. *)
Theorem rejections_all_look_alike {J : JSON} (E : Env) (s : State) (rejection : JsError) :
  (forall credentials,
     srv_login E credentials (bearer_of (store s)) = inl rejection ->
     outcome (login E credentials s) = Thrown (new_Error generic_message) /\
     error (session (final (login E credentials s))) = Some generic_message) /\
  (forall userData,
     srv_register E userData (bearer_of (store s)) = inl rejection ->
     outcome (register E userData s) = Thrown (new_Error generic_message) /\
     error (session (final (register E userData s))) = Some generic_message) /\
  (forall email,
     srv_resetPassword E {| reset_email := email |} (bearer_of (store s)) = inl rejection ->
     outcome (resetPassword E email s) = Thrown (new_Error generic_message) /\
     error (session (final (resetPassword E email s))) = Some generic_message) /\
  (forall old,
     store s !! REFRESH_TOKEN_KEY = Some old -> old <> "" ->
     srv_refresh E old (bearer_of (store s)) = inl rejection ->
     outcome (refreshToken E s) = Thrown (new_Error generic_message) /\
     error (session (final (refreshToken E s))) = Some generic_message).
Proof.
  repeat apply conj.
  - intros credentials Hrejected.
    change (wp (login E credentials) s (fun o s' _ =>
      o = Thrown (new_Error generic_message) /\
      error (session s') = Some generic_message)).
    unfold login, login_try. wp_run. split; reflexivity.
  - intros userData Hrejected.
    change (wp (register E userData) s (fun o s' _ =>
      o = Thrown (new_Error generic_message) /\
      error (session s') = Some generic_message)).
    unfold register, register_try. wp_run. split; reflexivity.
  - intros email Hrejected.
    change (wp (resetPassword E email) s (fun o s' _ =>
      o = Thrown (new_Error generic_message) /\
      error (session s') = Some generic_message)).
    unfold resetPassword, resetPassword_try. wp_run. split; reflexivity.
  - intros old Hstored Hne Hrejected.
    assert (Hold : negb (truthy (store s !! REFRESH_TOKEN_KEY)) = false)
      by (rewrite Hstored; apply token_nonempty, Hne).
    change (wp (refreshToken E) s (fun o s' _ =>
      o = Thrown (new_Error generic_message) /\
      error (session s') = Some generic_message)).
    unfold refreshToken, refreshToken_try.
    wp_step. wp_step. wp_step. wp_step. wp_step.
    rewrite Hstored. cbn [default from_option id].
    wp_run. split; reflexivity.
Qed.

Lemma rejections_all_look_alike_witness :
  error (session (final (login (J := stub_json) env_reject alice_credentials
                           (startup_state ∅)))) = Some generic_message /\
  error (session (final (refreshToken (J := stub_json) env_reject alice_state)))
    = Some generic_message.
Proof.
  destruct (rejections_all_look_alike (J := stub_json) env_reject (startup_state ∅)
              invalid_credentials) as (Hlogin & _).
  destruct (rejections_all_look_alike (J := stub_json) env_reject alice_state
              invalid_credentials) as (_ & _ & _ & Hrefresh).
  assert (Hne : "r0" <> "") by discriminate.
  exact (conj (proj2 (Hlogin alice_credentials eq_refl))
              (proj2 (Hrefresh "r0" eq_refl Hne eq_refl))).
Defined.

(* ===================================================================== *)
(** ** Logging out twice *)
(* ===================================================================== *)

Lemma purged_idemp (m : gmap string string) : purged (purged m) = purged m.
Proof.
  apply map_eq. intros key. unfold purged.
  rewrite !lookup_delete. repeat case_decide; reflexivity.
Qed.

Lemma logout_final (E : Env) (s : State) :
  final (logout E s)
  = {| session := {| user := None; isLoading := false; error := None |};
       store := purged (store s) |}.
Proof.
  change (wp (logout E) s (fun _ s' _ =>
    s' = {| session := {| user := None; isLoading := false; error := None |};
            store := purged (store s) |})).
  unfold logout, logout_try. wp_run; reflexivity.
Qed.

(** X22.  [logout] is idempotent on the state and forgets everything about
    the session: whatever the two backends answer, a second logout leaves
    the state of the first, and two logouts from states with the same
    store, up to the three keys of the bundle, end in the same state. *)
Theorem logout_idempotent (E E' : Env) (s s' : State) :
  final (logout E' (final (logout E s))) = final (logout E s) /\
  (purged (store s) = purged (store s') ->
   final (logout E s) = final (logout E' s')).
Proof.
  split.
  - rewrite !logout_final. cbn [store]. by rewrite purged_idemp.
  - intros Hsame. rewrite !logout_final. by rewrite Hsame.
Qed.

Lemma logout_idempotent_witness :
  final (logout env_ok alice_state) = final (logout env_reject (startup_state ∅)).
Proof.
  apply (proj2 (logout_idempotent env_ok env_reject alice_state (startup_state ∅))).
  vm_compute. reflexivity.
Defined.
